(** * Rvvel affiliate links store: a shallow embedding of [src/index.ts]

    The server keeps three SQLite tables (affiliate_links, link_clicks,
    link_conversions) behind one [better-sqlite3] handle and answers eight
    tools in the [tools/call] handler.  The tables are modelled as lists of
    rows in rowid order, every prepared statement as a function on the
    database, and the handler as a small exception/state monad whose
    [try ... catch] turns a thrown error into an error reply.

    Conventions of the model:
    - TEXT columns and JS strings are [string]; SQL NULL / JS [null] /
      [undefined] is [None].
    - REAL columns and JS numbers are exact rationals [Q]; binary rounding is
      outside the model.  INTEGER columns are [Z].
    - An optional numeric argument is absent, null or a number
      ([number_arg]); the arguments object of get_affiliate_links, which has
      no required property, may be absent altogether.
    - Text that JavaScript renders from a number (template literals,
      [toFixed]) is kept symbolic as a [template].
    - [generateId()], [new Date().toISOString()] and the health of the disk
      are inputs of each call, gathered in [env]. *)

From Stdlib Require Import List String Ascii Bool Arith ZArith QArith Lia.
From Stdlib Require Import Permutation Sorted.
Import ListNotations.

Local Set Warnings "-register-all".
Local Close Scope Q_scope.
Local Open Scope string_scope.
Local Open Scope list_scope.

(** ** JSON values *)

(** A piece of text produced by a template literal. *)
Inductive piece : Type :=
| Lit (s : string)                (* literal characters *)
| NumText (q : Q)                 (* `${q}`, Number-to-string of q *)
| Fixed (q : Q) (digits : nat).   (* q.toFixed(digits) *)

Definition template : Type := list piece.

Inductive json : Type :=
| JNull
| JBool (b : bool)
| JNum (q : Q)
| JStr (s : string)
| JTpl (t : template)             (* a string whose characters are rendered numbers *)
| JArr (items : list json)
| JObj (fields : list (string * json)).

(** Property lookup [o.k] on a parsed object. *)
Fixpoint assoc (k : string) (fields : list (string * json)) : option json :=
  match fields with
  | [] => None
  | (k', v) :: rest => if String.eqb k k' then Some v else assoc k rest
  end.

Definition get (k : string) (j : json) : option json :=
  match j with
  | JObj fields => assoc k fields
  | _ => None
  end.

Definition JInt (z : Z) : json := JNum (inject_Z z).

Definition JOptStr (o : option string) : json :=
  match o with
  | Some s => JStr s
  | None => JNull
  end.

(** ** The text of a tags blob: JSON.stringify / JSON.parse on string arrays *)

Module JSON.

Definition quote : ascii := "034"%char.
Definition backslash : ascii := "092"%char.

Definition hex_digit (n : nat) : ascii :=
  nth n (list_ascii_of_string "0123456789abcdef") "f"%char.

(** QuoteJSONString on one code unit. *)
Definition escape_char (c : ascii) : string :=
  let n := nat_of_ascii c in
  if Ascii.eqb c quote then String backslash (String quote EmptyString)
  else if Ascii.eqb c backslash then String backslash (String backslash EmptyString)
  else if Nat.eqb n 8 then String backslash "b"
  else if Nat.eqb n 12 then String backslash "f"
  else if Nat.eqb n 10 then String backslash "n"
  else if Nat.eqb n 13 then String backslash "r"
  else if Nat.eqb n 9 then String backslash "t"
  else if Nat.ltb n 32 then
    String backslash
      (String "u" (String "0" (String "0"
        (String (hex_digit (n / 16)) (String (hex_digit (n mod 16)) EmptyString)))))
  else String c EmptyString.

Fixpoint escape (s : string) : string :=
  match s with
  | EmptyString => EmptyString
  | String c rest => escape_char c ++ escape rest
  end.

Definition quoted (s : string) : string :=
  String quote (escape s ++ String quote EmptyString).

Fixpoint join_quoted (l : list string) : string :=
  match l with
  | [] => EmptyString
  | [s] => quoted s
  | s :: rest => quoted s ++ String "," (join_quoted rest)
  end.

(** JSON.stringify(tags) for an array of strings, no indentation. *)
Definition stringify (tags : list string) : string :=
  String "[" (join_quoted tags ++ "]").

Definition unhex (c : ascii) : option nat :=
  let n := nat_of_ascii c in
  if Nat.leb 48 n && Nat.leb n 57 then Some (n - 48)
  else if Nat.leb 97 n && Nat.leb n 102 then Some (n - 87)
  else if Nat.leb 65 n && Nat.leb n 70 then Some (n - 55)
  else None.

Definition unescape (c : ascii) : option ascii :=
  if Ascii.eqb c quote then Some quote
  else if Ascii.eqb c backslash then Some backslash
  else if Ascii.eqb c "/" then Some "/"%char
  else if Ascii.eqb c "b" then Some (ascii_of_nat 8)
  else if Ascii.eqb c "f" then Some (ascii_of_nat 12)
  else if Ascii.eqb c "n" then Some (ascii_of_nat 10)
  else if Ascii.eqb c "r" then Some (ascii_of_nat 13)
  else if Ascii.eqb c "t" then Some (ascii_of_nat 9)
  else None.

Definition is_space (c : ascii) : bool :=
  let n := nat_of_ascii c in
  Nat.eqb n 32 || Nat.eqb n 9 || Nat.eqb n 10 || Nat.eqb n 13.

Definition snoc (s : string) (c : ascii) : string := s ++ String c EmptyString.

(** Where the reader stands in the text of an array of strings. *)
Inductive state : Type :=
| Before                          (* nothing read yet *)
| Opened                          (* after the opening bracket *)
| InStr (acc : string)            (* inside a string literal *)
| Esc (acc : string)              (* after a backslash *)
| Uni (acc : string) (k v : nat)  (* k hex digits of a \u escape read, value v *)
| AfterStr                        (* after a closing quote *)
| AfterComma
| Closed.                         (* after the closing bracket *)

Fixpoint read (st : state) (done : list string) (s : string) : option (list string) :=
  match s with
  | EmptyString =>
      match st with
      | Closed => Some done
      | _ => None
      end
  | String c rest =>
      match st with
      | Before =>
          if is_space c then read Before done rest
          else if Ascii.eqb c "[" then read Opened done rest
          else None
      | Opened =>
          if is_space c then read Opened done rest
          else if Ascii.eqb c "]" then read Closed done rest
          else if Ascii.eqb c quote then read (InStr EmptyString) done rest
          else None
      | InStr acc =>
          if Ascii.eqb c quote then read AfterStr (done ++ [acc]) rest
          else if Ascii.eqb c backslash then read (Esc acc) done rest
          else if Nat.ltb (nat_of_ascii c) 32 then None
          else read (InStr (snoc acc c)) done rest
      | Esc acc =>
          if Ascii.eqb c "u" then read (Uni acc 0 0) done rest
          else match unescape c with
               | Some d => read (InStr (snoc acc d)) done rest
               | None => None
               end
      | Uni acc k v =>
          match unhex c with
          | Some h =>
              let v' := 16 * v + h in
              if Nat.eqb k 3
              then if Nat.ltb v' 256
                   then read (InStr (snoc acc (ascii_of_nat v'))) done rest
                   else None
              else read (Uni acc (S k) v') done rest
          | None => None
          end
      | AfterStr =>
          if is_space c then read AfterStr done rest
          else if Ascii.eqb c "," then read AfterComma done rest
          else if Ascii.eqb c "]" then read Closed done rest
          else None
      | AfterComma =>
          if is_space c then read AfterComma done rest
          else if Ascii.eqb c quote then read (InStr EmptyString) done rest
          else None
      | Closed =>
          if is_space c then read Closed done rest else None
      end
  end.

(** JSON.parse restricted to texts that denote an array of strings.  [None]
    stands for every other outcome (a SyntaxError, or a value that is not an
    array of strings); [store_affiliate_link] never writes such a blob. *)
Definition parse (text : string) : option (list string) := read Before [] text.

End JSON.

(** ** Rows of the three tables *)

(** affiliate_links *)
Module Row.
Record t : Type := mk {
  id : string;                (* TEXT PRIMARY KEY *)
  program : string;
  product : string;
  link : string;              (* TEXT NOT NULL UNIQUE *)
  commission_rate : Q;
  category : string;
  tags : option string;       (* TEXT, the serialized array *)
  expiry : option string;
  created_at : string;
  updated_at : string;
  clicks : Z;                 (* INTEGER DEFAULT 0 *)
  conversions : Z;            (* INTEGER DEFAULT 0 *)
  revenue : Q;                (* REAL DEFAULT 0 *)
  notes : option string
}.
End Row.

(** link_clicks *)
Module Click.
Record t : Type := mk {
  id : string;
  link_id : string;           (* FOREIGN KEY REFERENCES affiliate_links(id) *)
  timestamp : string;
  source : option string;
  user_id : option string
}.
End Click.

(** link_conversions *)
Module Conversion.
Record t : Type := mk {
  id : string;
  link_id : string;           (* FOREIGN KEY REFERENCES affiliate_links(id) *)
  timestamp : string;
  amount : Q;
  order_id : option string
}.
End Conversion.

(** The datastore behind [db].  [foreign_keys] is the connection's
    foreign_keys pragma: the server never sets it, so it has the value the
    bundled SQLite was built with (better-sqlite3 builds SQLite with
    SQLITE_DEFAULT_FOREIGN_KEYS=1, see [open_database]). *)
Record database : Type := mkdb {
  affiliate_links : list Row.t;
  link_clicks : list Click.t;
  link_conversions : list Conversion.t;
  foreign_keys : bool
}.

(** A fresh file after the CREATE TABLE script, on a connection whose
    foreign_keys pragma is [fk]. *)
Definition fresh_database (fk : bool) : database :=
  {| affiliate_links := []; link_clicks := []; link_conversions := [];
     foreign_keys := fk |}.

(** [new Database(dbPath)] of better-sqlite3 on a fresh file: foreign keys are
    enforced. *)
Definition open_database : database := fresh_database true.

(** The type AffiliateLink of the server (a JS object). *)
Module Link.
Record t : Type := mk {
  id : string;
  program : string;
  product : string;
  link : string;
  commissionRate : Q;
  category : string;
  tags : list string;
  expiry : option string;
  createdAt : string;
  updatedAt : string;
  clicks : Z;
  conversions : Z;
  revenue : Q;
  notes : option string
}.
End Link.

(** ** Errors and the statement monad *)

Inductive exception : Type :=
| UNIQUE_failed (table column : string)   (* SqliteError, SQLITE_CONSTRAINT *)
| FOREIGN_KEY_failed                      (* SqliteError, SQLITE_CONSTRAINT_FOREIGNKEY *)
| IOERR                                   (* SqliteError raised by the disk *)
| Datatype_mismatch                       (* SqliteError, SQLITE_MISMATCH *)
| SyntaxError                             (* thrown by JSON.parse *)
| TypeError (property : string).          (* a property read on undefined *)

(** [error.message]. *)
Definition message (e : exception) : string :=
  match e with
  | UNIQUE_failed table column =>
      "UNIQUE constraint failed: " ++ table ++ "." ++ column
  | FOREIGN_KEY_failed => "FOREIGN KEY constraint failed"
  | IOERR => "disk I/O error"
  | Datatype_mismatch => "datatype mismatch"
  | SyntaxError => "Unexpected token in JSON"
  | TypeError property =>
      "Cannot read properties of undefined (reading '" ++ property ++ "')"
  end.

(** The violation of the UNIQUE constraint on affiliate_links.link. *)
Definition DuplicateLink : exception := UNIQUE_failed "affiliate_links" "link".

Inductive result (A : Type) : Type :=
| Ok (a : A)
| Throw (e : exception).
Arguments Ok {A} a.
Arguments Throw {A} e.

(** A computation on the connection.  There is no BEGIN/COMMIT anywhere in the
    server, so every statement commits on its own: the database that comes
    back with a [Throw] holds whatever the earlier statements wrote. *)
Definition exec (A : Type) : Type := database -> result A * database.

Definition ret {A} (a : A) : exec A := fun d => (Ok a, d).
Definition throw {A} (e : exception) : exec A := fun d => (Throw e, d).
Definition bind {A B} (m : exec A) (k : A -> exec B) : exec B :=
  fun d =>
    match m d with
    | (Ok a, d1) => k a d1
    | (Throw e, d1) => (Throw e, d1)
    end.

Notation "x <- m ;; k" := (bind m (fun x => k))
  (at level 61, m at next level, right associativity).
Notation "m ;;; k" := (bind m (fun _ => k))
  (at level 61, right associativity).

(** What a call takes from outside the program. *)
Record env : Type := mkenv {
  generateId : string;          (* the value of generateId() in this call *)
  now : string;                 (* new Date().toISOString() *)
  io_fail : nat -> bool         (* does the n-th stmt.run of this call hit a disk error *)
}.

(** ** Prepared statements *)

Definition mem (s : string) (l : list string) : bool := existsb (String.eqb s) l.

Definition set_links (d : database) (l : list Row.t) : database :=
  {| affiliate_links := l; link_clicks := link_clicks d;
     link_conversions := link_conversions d; foreign_keys := foreign_keys d |}.

Definition set_clicks (d : database) (l : list Click.t) : database :=
  {| affiliate_links := affiliate_links d; link_clicks := l;
     link_conversions := link_conversions d; foreign_keys := foreign_keys d |}.

Definition set_conversions (d : database) (l : list Conversion.t) : database :=
  {| affiliate_links := affiliate_links d; link_clicks := link_clicks d;
     link_conversions := l; foreign_keys := foreign_keys d |}.

(** INSERT INTO affiliate_links (id, program, product, link, commission_rate,
    category, tags, expiry, created_at, updated_at) VALUES (...).
    clicks, conversions and revenue take their DEFAULT 0; notes is not in the
    column list and stays NULL.  When both the link and the id are taken,
    the violation reported is the one of UNIQUE(link). *)
Definition insert_link (fail : bool) (id program product link : string)
    (commission_rate : Q) (category : string) (tags expiry : option string)
    (created_at updated_at : string) : exec unit :=
  fun d =>
    if fail then (Throw IOERR, d)
    else if mem link (map Row.link (affiliate_links d))
    then (Throw DuplicateLink, d)
    else if mem id (map Row.id (affiliate_links d))
    then (Throw (UNIQUE_failed "affiliate_links" "id"), d)
    else
      (Ok tt,
       set_links d
         (affiliate_links d ++
          [Row.mk id program product link commission_rate category tags expiry
                  created_at updated_at 0%Z 0%Z 0%Q None])).

(** The parent-key check of FOREIGN KEY(link_id) REFERENCES affiliate_links(id). *)
Definition parent_exists (d : database) (link_id : string) : bool :=
  negb (foreign_keys d) || mem link_id (map Row.id (affiliate_links d)).

(** INSERT INTO link_clicks (id, link_id, timestamp, source, user_id) VALUES (...) *)
Definition insert_click (fail : bool) (c : Click.t) : exec unit :=
  fun d =>
    if fail then (Throw IOERR, d)
    else if mem (Click.id c) (map Click.id (link_clicks d))
    then (Throw (UNIQUE_failed "link_clicks" "id"), d)
    else if negb (parent_exists d (Click.link_id c))
    then (Throw FOREIGN_KEY_failed, d)
    else (Ok tt, set_clicks d (link_clicks d ++ [c])).

(** INSERT INTO link_conversions (id, link_id, timestamp, amount, order_id) VALUES (...) *)
Definition insert_conversion (fail : bool) (c : Conversion.t) : exec unit :=
  fun d =>
    if fail then (Throw IOERR, d)
    else if mem (Conversion.id c) (map Conversion.id (link_conversions d))
    then (Throw (UNIQUE_failed "link_conversions" "id"), d)
    else if negb (parent_exists d (Conversion.link_id c))
    then (Throw FOREIGN_KEY_failed, d)
    else (Ok tt, set_conversions d (link_conversions d ++ [c])).

Definition bump_clicks (r : Row.t) : Row.t :=
  Row.mk (Row.id r) (Row.program r) (Row.product r) (Row.link r)
         (Row.commission_rate r) (Row.category r) (Row.tags r) (Row.expiry r)
         (Row.created_at r) (Row.updated_at r)
         (Row.clicks r + 1)%Z (Row.conversions r) (Row.revenue r) (Row.notes r).

Definition bump_conversions (amount : Q) (r : Row.t) : Row.t :=
  Row.mk (Row.id r) (Row.program r) (Row.product r) (Row.link r)
         (Row.commission_rate r) (Row.category r) (Row.tags r) (Row.expiry r)
         (Row.created_at r) (Row.updated_at r)
         (Row.clicks r) (Row.conversions r + 1)%Z (Row.revenue r + amount)%Q
         (Row.notes r).

(** UPDATE affiliate_links SET ... WHERE id = ? *)
Definition update_where_id (f : Row.t -> Row.t) (id : string) (rows : list Row.t)
    : list Row.t :=
  map (fun r => if String.eqb (Row.id r) id then f r else r) rows.

(** UPDATE affiliate_links SET clicks = clicks + 1 WHERE id = ? *)
Definition update_clicks (fail : bool) (id : string) : exec unit :=
  fun d =>
    if fail then (Throw IOERR, d)
    else (Ok tt, set_links d (update_where_id bump_clicks id (affiliate_links d))).

(** UPDATE affiliate_links SET conversions = conversions + 1,
    revenue = revenue + ? WHERE id = ? *)
Definition update_conversions (fail : bool) (amount : Q) (id : string) : exec unit :=
  fun d =>
    if fail then (Throw IOERR, d)
    else (Ok tt,
          set_links d (update_where_id (bump_conversions amount) id (affiliate_links d))).

(** SELECT COUNT( * ) as count FROM link_clicks WHERE link_id = ? *)
Definition count_clicks (id : string) (d : database) : Z :=
  Z.of_nat (List.length (filter (fun c => String.eqb (Click.link_id c) id) (link_clicks d))).

(** SELECT COUNT( * ) as count FROM link_conversions WHERE link_id = ? *)
Definition count_conversions (id : string) (d : database) : Z :=
  Z.of_nat
    (List.length (filter (fun c => String.eqb (Conversion.link_id c) id) (link_conversions d))).

(** ORDER BY ... DESC.  [geb x y] says that x may come before y.  Rows that
    compare equal keep their table order here; SQL leaves their order open. *)
Fixpoint insert_desc {A} (geb : A -> A -> bool) (x : A) (l : list A) : list A :=
  match l with
  | [] => [x]
  | y :: rest => if geb x y then x :: y :: rest else y :: insert_desc geb x rest
  end.

Definition order_by_desc {A} (geb : A -> A -> bool) (l : list A) : list A :=
  fold_right (insert_desc geb) [] l.

Definition commission_geb (x y : Row.t) : bool :=
  Qle_bool (Row.commission_rate y) (Row.commission_rate x).

Definition created_geb (x y : Row.t) : bool :=
  String.leb (Row.created_at y) (Row.created_at x).

(** LIMIT n: a negative n means no upper bound. *)
Definition limit_rows {A} (n : Z) (l : list A) : list A :=
  if (n <? 0)%Z then l else firstn (Z.to_nat n) l.

(** ** Arguments of the tools *)

Module StoreArgs.
Record t : Type := mk {
  program : string;
  product : string;
  link : string;
  commissionRate : Q;
  category : string;
  tags : option (list string);
  expiry : option string;
  notes : option string
}.
End StoreArgs.

(** An optional numeric argument, as the JSON of the request delivers it. *)
Inductive number_arg : Type :=
| missing                   (* the property is absent: undefined *)
| null                      (* JSON null *)
| number (q : Q).

Module ListArgs.
Record t : Type := mk {
  category : option string;
  program : option string;
  minCommission : number_arg;
  maxCommission : number_arg;
  limit : number_arg
}.
End ListArgs.

Module SearchArgs.
Record t : Type := mk { query : string; limit : number_arg }.
End SearchArgs.

Module ClickArgs.
Record t : Type := mk {
  linkId : string;
  source : option string;
  userId : option string
}.
End ClickArgs.

Module ConversionArgs.
Record t : Type := mk {
  linkId : string;
  amount : Q;
  orderId : option string
}.
End ConversionArgs.

(** [x || null] on an optional string: the empty string is falsy. *)
Definition or_null (x : option string) : option string :=
  match x with
  | Some EmptyString => None
  | other => other
  end.

(** [n || dflt] on an optional number: undefined, null and 0 are falsy. *)
Definition or_default (n : number_arg) (dflt : Q) : Q :=
  match n with
  | number v => if Qeq_bool v 0 then dflt else v
  | _ => dflt
  end.

(** The integer that LIMIT reads from the bound JS number.  The number has to
    be an integer that SQLite can hold in 64 bits; for a fraction, or a value
    beyond that range, the statement fails with "datatype mismatch". *)
Definition as_limit (q : Q) : option Z :=
  let n := (Qnum q / Z.pos (Qden q))%Z in
  if ((Qnum q mod Z.pos (Qden q) =? 0) && (- 2 ^ 63 <? n) && (n <? 2 ^ 63 - 1))%Z
  then Some n
  else None.

(** ** Replies *)

Inductive payload : Type :=
| Json (j : json)          (* text: JSON.stringify(j) *)
| Text (t : template).     (* text: t itself *)

Record reply : Type := mkreply {
  content : payload;
  isError : bool           (* absent on the replies that do not set it *)
}.

Definition success (j : json) : reply := {| content := Json j; isError := false |}.

Definition error_payload (msg : string) : json := JObj [("error", JStr msg)].

(** ** Helper functions of the server *)

(** [row.tags ? JSON.parse(row.tags) : []] *)
Definition parse_tags (blob : option string) : result (list string) :=
  match blob with
  | None => Ok []
  | Some EmptyString => Ok []
  | Some text =>
      match JSON.parse text with
      | Some l => Ok l
      | None => Throw SyntaxError
      end
  end.

(** The object literal shared by [getAffiliateLink] and [getAllAffiliateLinks]. *)
Definition to_link (row : Row.t) : result Link.t :=
  match parse_tags (Row.tags row) with
  | Ok tags =>
      Ok (Link.mk (Row.id row) (Row.program row) (Row.product row) (Row.link row)
                  (Row.commission_rate row) (Row.category row) tags (Row.expiry row)
                  (Row.created_at row) (Row.updated_at row) (Row.clicks row)
                  (Row.conversions row) (Row.revenue row) (Row.notes row))
  | Throw e => Throw e
  end.

(** SELECT * FROM affiliate_links WHERE id = ?, then [stmt.get]. *)
Definition select_by_id (id : string) (d : database) : option Row.t :=
  find (fun r => String.eqb (Row.id r) id) (affiliate_links d).

Definition getAffiliateLink (id : string) : exec (option Link.t) :=
  fun d =>
    match select_by_id id d with
    | None => (Ok None, d)
    | Some row =>
        match to_link row with
        | Ok l => (Ok (Some l), d)
        | Throw e => (Throw e, d)
        end
    end.

Fixpoint map_result {A B} (f : A -> result B) (l : list A) : result (list B) :=
  match l with
  | [] => Ok []
  | x :: rest =>
      match f x with
      | Ok y =>
          match map_result f rest with
          | Ok ys => Ok (y :: ys)
          | Throw e => Throw e
          end
      | Throw e => Throw e
      end
  end.

(** SELECT * FROM affiliate_links ORDER BY created_at DESC, then [rows.map]. *)
Definition getAllAffiliateLinks : exec (list Link.t) :=
  fun d => (map_result to_link (order_by_desc created_geb (affiliate_links d)), d).

(** JSON.stringify of an AffiliateLink object. *)
Definition link_json (l : Link.t) : json :=
  JObj [("id", JStr (Link.id l));
        ("program", JStr (Link.program l));
        ("product", JStr (Link.product l));
        ("link", JStr (Link.link l));
        ("commissionRate", JNum (Link.commissionRate l));
        ("category", JStr (Link.category l));
        ("tags", JArr (map JStr (Link.tags l)));
        ("expiry", JOptStr (Link.expiry l));
        ("createdAt", JStr (Link.createdAt l));
        ("updatedAt", JStr (Link.updatedAt l));
        ("clicks", JInt (Link.clicks l));
        ("conversions", JInt (Link.conversions l));
        ("revenue", JNum (Link.revenue l));
        ("notes", JOptStr (Link.notes l))].

(** ** The tools *)

Definition store_affiliate_link (e : env) (args : StoreArgs.t) : exec reply :=
  let id := generateId e in
  let now := now e in
  insert_link (io_fail e 0) id
    (StoreArgs.program args) (StoreArgs.product args) (StoreArgs.link args)
    (StoreArgs.commissionRate args) (StoreArgs.category args)
    (match StoreArgs.tags args with
     | Some tags => Some (JSON.stringify tags)
     | None => None
     end)
    (or_null (StoreArgs.expiry args)) now now ;;;
  ret (success
         (JObj [("success", JBool true);
                ("linkId", JStr id);
                ("message",
                 JStr ("Affiliate link stored: " ++ StoreArgs.product args ++ " ("
                       ++ StoreArgs.program args ++ ")"))])).

(** One conjunct appended to "WHERE 1=1", with its bound parameter. *)
Inductive condition : Type :=
| category_eq (v : string)
| program_eq (v : string)
| commission_ge (v : option Q)     (* None: the parameter is bound to NULL *)
| commission_le (v : option Q).

Definition holds (r : Row.t) (c : condition) : bool :=
  match c with
  | category_eq v => String.eqb (Row.category r) v
  | program_eq v => String.eqb (Row.program r) v
  | commission_ge (Some v) => Qle_bool v (Row.commission_rate r)
  | commission_le (Some v) => Qle_bool (Row.commission_rate r) v
  | commission_ge None | commission_le None => false   (* a comparison with NULL *)
  end.

Definition build_query (args : ListArgs.t) : list condition :=
  (match or_null (ListArgs.category args) with
   | Some c => [category_eq c]
   | None => []
   end) ++
  (match or_null (ListArgs.program args) with
   | Some p => [program_eq p]
   | None => []
   end) ++
  (match ListArgs.minCommission args with
   | missing => []
   | null => [commission_ge None]
   | number m => [commission_ge (Some m)]
   end) ++
  (match ListArgs.maxCommission args with
   | missing => []
   | null => [commission_le None]
   | number m => [commission_le (Some m)]
   end).

(** SELECT * FROM affiliate_links WHERE 1=1 AND ... ORDER BY commission_rate DESC LIMIT ? *)
Definition select_links (query : list condition) (lim : Z) (d : database) : list Row.t :=
  limit_rows lim
    (order_by_desc commission_geb
       (filter (fun r => forallb (holds r) query) (affiliate_links d))).

Definition listed_json (row : Row.t) : json :=
  JObj [("id", JStr (Row.id row));
        ("program", JStr (Row.program row));
        ("product", JStr (Row.product row));
        ("link", JStr (Row.link row));
        ("commissionRate", JNum (Row.commission_rate row));
        ("category", JStr (Row.category row));
        ("clicks", JInt (Row.clicks row));
        ("conversions", JInt (Row.conversions row));
        ("revenue", JNum (Row.revenue row))].

(** [args] is [None] when the request carries no arguments object: the
    first property read, args.category, then throws. *)
Definition get_affiliate_links (args : option ListArgs.t) : exec reply :=
  match args with
  | None => throw (TypeError "category")
  | Some args =>
      fun d =>
        match as_limit (or_default (ListArgs.limit args) 50) with
        | None => (Throw Datatype_mismatch, d)
        | Some lim =>
            let rows := select_links (build_query args) lim d in
            let links := map listed_json rows in
            (Ok (success (JObj [("count", JInt (Z.of_nat (List.length links)));
                                ("links", JArr links)])), d)
        end
  end.

Definition found_json (row : Row.t) : json :=
  JObj [("id", JStr (Row.id row));
        ("product", JStr (Row.product row));
        ("program", JStr (Row.program row));
        ("link", JStr (Row.link row));
        ("commissionRate", JNum (Row.commission_rate row));
        ("category", JStr (Row.category row))].

Definition get_best_link (category : string) : exec reply :=
  fun d =>
    match select_links [category_eq category] 1 d with
    | [] => (Ok (success (error_payload ("No links found for category: " ++ category))), d)
    | row :: _ => (Ok (success (found_json row)), d)
    end.

Definition lower (c : ascii) : ascii :=
  let n := nat_of_ascii c in
  if Nat.leb 65 n && Nat.leb n 90 then ascii_of_nat (n + 32) else c.

(** The LIKE operator: percent matches any run of characters, underscore one
    character, ASCII letters match without regard to case. *)
Fixpoint like (pattern : string) : string -> bool :=
  match pattern with
  | EmptyString =>
      fun text => match text with EmptyString => true | _ => false end
  | String p rest =>
      if Ascii.eqb p "%" then
        fix skip (text : string) : bool :=
          like rest text
          || match text with
             | EmptyString => false
             | String _ t => skip t
             end
      else
        fun text =>
          match text with
          | EmptyString => false
          | String c t =>
              (Ascii.eqb p "_" || Ascii.eqb (lower p) (lower c)) && like rest t
          end
  end.

Definition search_links (args : SearchArgs.t) : exec reply :=
  fun d =>
    let query := ("%" ++ SearchArgs.query args ++ "%")%string in
    let matches (r : Row.t) :=
      like query (Row.product r)
      || match Row.notes r with
         | Some n => like query n
         | None => false
         end in
    match as_limit (or_default (SearchArgs.limit args) 20) with
    | None => (Throw Datatype_mismatch, d)
    | Some lim =>
        let rows :=
          limit_rows lim
            (order_by_desc commission_geb (filter matches (affiliate_links d))) in
        let links := map found_json rows in
        (Ok (success (JObj [("query", JStr (SearchArgs.query args));
                            ("count", JInt (Z.of_nat (List.length links)));
                            ("links", JArr links)])), d)
    end.

(** [clicks > 0 ? ((conversions / clicks) * 100).toFixed(2) + "%" : "0%"] *)
Definition conversionRate (clicks conversions : Z) : json :=
  if (clicks >? 0)%Z
  then JTpl [Fixed ((inject_Z conversions / inject_Z clicks) * 100)%Q 2; Lit "%"]
  else JStr "0%".

Definition get_stats (linkId : string) : exec reply :=
  link <- getAffiliateLink linkId ;;
  match link with
  | None => ret (success (error_payload "Link not found"))
  | Some link =>
      fun d =>
        let clicks := count_clicks linkId d in
        let conversions := count_conversions linkId d in
        (Ok (success
               (JObj [("linkId", JStr linkId);
                      ("product", JStr (Link.product link));
                      ("program", JStr (Link.program link));
                      ("clicks", JInt clicks);
                      ("conversions", JInt conversions);
                      ("revenue", JNum (Link.revenue link));
                      ("conversionRate", conversionRate clicks conversions)])), d)
  end.

Definition track_click (e : env) (args : ClickArgs.t) : exec reply :=
  let id := generateId e in
  insert_click (io_fail e 0)
    (Click.mk id (ClickArgs.linkId args) (now e)
              (or_null (ClickArgs.source args)) (or_null (ClickArgs.userId args))) ;;;
  update_clicks (io_fail e 1) (ClickArgs.linkId args) ;;;
  ret (success (JObj [("success", JBool true); ("message", JStr "Click tracked")])).

Definition track_conversion (e : env) (args : ConversionArgs.t) : exec reply :=
  let id := generateId e in
  insert_conversion (io_fail e 0)
    (Conversion.mk id (ConversionArgs.linkId args) (now e)
                   (ConversionArgs.amount args) (or_null (ConversionArgs.orderId args))) ;;;
  update_conversions (io_fail e 1) (ConversionArgs.amount args)
    (ConversionArgs.linkId args) ;;;
  ret (success
         (JObj [("success", JBool true);
                ("message",
                 JTpl [Lit "Conversion tracked: $";
                       NumText (ConversionArgs.amount args)])])).

Definition newline : string := String "010"%char EmptyString.
Definition dquote : string := String JSON.quote EmptyString.

(** [r.map((v) => `"${v}"`).join(",")] on the nine cells of a link. *)
Definition csv_row (l : Link.t) : template :=
  let str (s : string) := [Lit dquote; Lit s; Lit dquote] in
  let num (q : Q) := [Lit dquote; NumText q; Lit dquote] in
  str (Link.id l) ++ [Lit ","] ++ str (Link.program l) ++ [Lit ","] ++
  str (Link.product l) ++ [Lit ","] ++ str (Link.link l) ++ [Lit ","] ++
  num (Link.commissionRate l) ++ [Lit ","] ++ str (Link.category l) ++ [Lit ","] ++
  num (inject_Z (Link.clicks l)) ++ [Lit ","] ++
  num (inject_Z (Link.conversions l)) ++ [Lit ","] ++ num (Link.revenue l).

Definition csv_headers : string :=
  "ID,Program,Product,Link,Commission %,Category,Clicks,Conversions,Revenue".

Definition export_links (format : string) : exec reply :=
  links <- getAllAffiliateLinks ;;
  if String.eqb format "csv"
  then ret {| content :=
                Text (Lit csv_headers
                      :: flat_map (fun l => Lit newline :: csv_row l) links);
              isError := false |}
  else ret (success (JArr (map link_json links))).

(** ** The tools/call handler *)

Inductive request : Type :=
| call_store_affiliate_link (args : StoreArgs.t)
| call_get_affiliate_links (args : option ListArgs.t)
| call_get_best_link (category : string)
| call_search_links (args : SearchArgs.t)
| call_get_stats (linkId : string)
| call_track_click (args : ClickArgs.t)
| call_track_conversion (args : ConversionArgs.t)
| call_export_links (format : string)
| call_other (name : string).

Definition dispatch (e : env) (req : request) : exec reply :=
  match req with
  | call_store_affiliate_link args => store_affiliate_link e args
  | call_get_affiliate_links args => get_affiliate_links args
  | call_get_best_link category => get_best_link category
  | call_search_links args => search_links args
  | call_get_stats linkId => get_stats linkId
  | call_track_click args => track_click e args
  | call_track_conversion args => track_conversion e args
  | call_export_links format => export_links format
  | call_other name =>
      ret {| content := Json (error_payload ("Unknown tool: " ++ name));
             isError := true |}
  end.

(** The [try { switch ... } catch (error) { ... }] of the handler. *)
Definition tools_call (e : env) (req : request) (d : database) : reply * database :=
  match dispatch e req d with
  | (Ok r, d') => (r, d')
  | (Throw ex, d') =>
      ({| content := Json (error_payload (message ex)); isError := true |}, d')
  end.

(** A session: the requests served one after the other. *)
Fixpoint serve (calls : list (env * request)) (d : database) : database :=
  match calls with
  | [] => d
  | (e, req) :: rest => serve rest (snd (tools_call e req d))
  end.

(** The states the store can be in: those a session reaches from a fresh
    file, whichever way the foreign_keys pragma of the connection is set. *)
Definition reachable (d : database) : Prop :=
  exists fk calls, d = serve calls (fresh_database fk).

(** ** Vocabulary of the properties and sample data *)

Definition click_of (e : env) (args : ClickArgs.t) : Click.t :=
  Click.mk (generateId e) (ClickArgs.linkId args) (now e)
           (or_null (ClickArgs.source args)) (or_null (ClickArgs.userId args)).

Definition conversion_of (e : env) (args : ConversionArgs.t) : Conversion.t :=
  Conversion.mk (generateId e) (ConversionArgs.linkId args) (now e)
                (ConversionArgs.amount args) (or_null (ConversionArgs.orderId args)).

Definition row_of (e : env) (args : StoreArgs.t) : Row.t :=
  Row.mk (generateId e) (StoreArgs.program args) (StoreArgs.product args)
         (StoreArgs.link args) (StoreArgs.commissionRate args) (StoreArgs.category args)
         (match StoreArgs.tags args with
          | Some tags => Some (JSON.stringify tags)
          | None => None
          end)
         (or_null (StoreArgs.expiry args)) (now e) (now e) 0%Z 0%Z 0%Q None.

(** The event row is in the log. *)
Definition click_logged (c : Click.t) (d : database) : database :=
  set_clicks d (link_clicks d ++ [c]).

Definition conversion_logged (c : Conversion.t) (d : database) : database :=
  set_conversions d (link_conversions d ++ [c]).

(** The cached counters of the link have moved. *)
Definition click_counted (id : string) (d : database) : database :=
  set_links d (update_where_id bump_clicks id (affiliate_links d)).

Definition conversion_counted (amount : Q) (id : string) (d : database) : database :=
  set_links d (update_where_id (bump_conversions amount) id (affiliate_links d)).

Definition link_stored (r : Row.t) (d : database) : database :=
  set_links d (affiliate_links d ++ [r]).

Definition failed (r : reply) (ex : exception) : Prop :=
  r = {| content := Json (error_payload (message ex)); isError := true |}.

(** The shapes a store can take after one request. *)
Inductive step (d : database) : request -> database -> Prop :=
| step_same (req : request) : step d req d
| step_store (e : env) (args : StoreArgs.t) :
    ~ In (generateId e) (map Row.id (affiliate_links d)) ->
    ~ In (StoreArgs.link args) (map Row.link (affiliate_links d)) ->
    step d (call_store_affiliate_link args) (link_stored (row_of e args) d)
| step_click_logged (e : env) (args : ClickArgs.t) :
    parent_exists d (ClickArgs.linkId args) = true ->
    step d (call_track_click args) (click_logged (click_of e args) d)
| step_click_counted (e : env) (args : ClickArgs.t) :
    parent_exists d (ClickArgs.linkId args) = true ->
    step d (call_track_click args)
         (click_counted (ClickArgs.linkId args) (click_logged (click_of e args) d))
| step_conversion_logged (e : env) (args : ConversionArgs.t) :
    parent_exists d (ConversionArgs.linkId args) = true ->
    step d (call_track_conversion args) (conversion_logged (conversion_of e args) d)
| step_conversion_counted (e : env) (args : ConversionArgs.t) :
    parent_exists d (ConversionArgs.linkId args) = true ->
    step d (call_track_conversion args)
         (conversion_counted (ConversionArgs.amount args) (ConversionArgs.linkId args)
            (conversion_logged (conversion_of e args) d)).

Definition healthy (id now : string) : env := mkenv id now (fun _ => false).

(** A call whose second statement meets a disk error. *)
Definition second_fails (id now : string) : env := mkenv id now (fun n => Nat.eqb n 1).

Definition chair : StoreArgs.t :=
  StoreArgs.mk "Amazon" "Ergonomic chair" "https://example.com/chair" (9 # 2)
               "office-furniture" None None None.

Definition desk : StoreArgs.t :=
  StoreArgs.mk "ShareASale" "Standing desk" "https://example.com/desk" (8 # 1)
               "office-furniture" (Some ["wfh"; "ergonomic"]) None (Some "sturdy").

Definition shop_calls : list (env * request) :=
  [(healthy "aff_1" "2024-05-01T10:00:00.000Z", call_store_affiliate_link chair)].

(** A store holding the chair under the id aff_1. *)
Definition shop : database := serve shop_calls open_database.

Definition click_on (id : string) : request :=
  call_track_click (ClickArgs.mk id None None).

Definition sale_on (id : string) (amount : Q) : request :=
  call_track_conversion (ConversionArgs.mk id amount None).

(** The array that a tags blob stands for: NULL stands for no tags. *)
Definition blob_denotes (blob : option string) (tags : list string) : Prop :=
  (blob = None /\ tags = []) \/ blob = Some (JSON.stringify tags).

Definition blobs_ok (d : database) : Prop :=
  Forall (fun r => exists tags, blob_denotes (Row.tags r) tags) (affiliate_links d).

(** The AffiliateLink object built from a row and its decoded tags. *)
Definition link_of (row : Row.t) (tags : list string) : Link.t :=
  Link.mk (Row.id row) (Row.program row) (Row.product row) (Row.link row)
          (Row.commission_rate row) (Row.category row) tags (Row.expiry row)
          (Row.created_at row) (Row.updated_at row) (Row.clicks row)
          (Row.conversions row) (Row.revenue row) (Row.notes row).

(** The reply field [k] of a JSON reply. *)
Definition field (k : string) (r : reply) : option json :=
  match content r with
  | Json j => get k j
  | Text _ => None
  end.

(** The sum of the amounts of the conversion rows of a link, as the
    specification describes the revenue of get_stats. *)
Definition sum_of_amounts (id : string) (d : database) : Q :=
  fold_right Qplus 0%Q
    (map Conversion.amount
       (filter (fun c => String.eqb (Conversion.link_id c) id) (link_conversions d))).

Definition failed_sale_calls : list (env * request) :=
  shop_calls
  ++ [(second_fails "aff_3" "2024-05-04T12:00:00.000Z", sale_on "aff_1" (10 # 1))].

(** The store after a sale of 10 on aff_1 whose UPDATE met a disk error. *)
Definition shop_after_failed_sale : database := serve failed_sale_calls open_database.

(** The request carries no negative sale amount. *)
Definition amount_nonneg (req : request) : Prop :=
  match req with
  | call_track_conversion args => (0 <= ConversionArgs.amount args)%Q
  | _ => True
  end.

Definition two_sales : list (env * request) :=
  [(healthy "aff_6" "2024-05-07T12:00:00.000Z", sale_on "aff_1" (10 # 1));
   (healthy "aff_7" "2024-05-07T13:00:00.000Z", sale_on "aff_1" (45 # 2))].

Definition is_click_on (id : string) (req : request) : bool :=
  match req with
  | call_track_click args => String.eqb (ClickArgs.linkId args) id
  | _ => false
  end.

(** Every track_click for [id] in the session is answered with a success. *)
Fixpoint clicks_succeed (id : string) (calls : list (env * request)) (d : database)
    : Prop :=
  match calls with
  | [] => True
  | (e, req) :: rest =>
      (is_click_on id req = true -> isError (fst (tools_call e req d)) = false)
      /\ clicks_succeed id rest (snd (tools_call e req d))
  end.

(** The number of track_click requests for [id] in the session. *)
Definition clicks_requested (id : string) (calls : list (env * request)) : Z :=
  Z.of_nat (List.length (filter (fun c => is_click_on id (snd c)) calls)).

Definition cached_clicks (id : string) (d : database) : option Z :=
  option_map Row.clicks (select_by_id id d).

(** Referential integrity of link_clicks: every click row names a stored link. *)
Definition no_orphans (d : database) : Prop :=
  Forall (fun c => In (Click.link_id c) (map Row.id (affiliate_links d))) (link_clicks d).

Definition three_clicks : list (env * request) :=
  [(healthy "aff_11" "2024-05-08T10:00:00.000Z", click_on "aff_10");
   (healthy "aff_12" "2024-05-08T11:00:00.000Z", click_on "aff_1");
   (healthy "aff_13" "2024-05-08T12:00:00.000Z", sale_on "aff_10" (20 # 1));
   (healthy "aff_14" "2024-05-08T13:00:00.000Z", click_on "aff_10");
   (healthy "aff_15" "2024-05-08T14:00:00.000Z", click_on "aff_10")].

(** The stored fields of a row as a JSON object, tags being the array [tags]. *)
Definition stored_fields (row : Row.t) (tags : list string) : json :=
  JObj [("id", JStr (Row.id row));
        ("program", JStr (Row.program row));
        ("product", JStr (Row.product row));
        ("link", JStr (Row.link row));
        ("commissionRate", JNum (Row.commission_rate row));
        ("category", JStr (Row.category row));
        ("tags", JArr (map JStr tags));
        ("expiry", JOptStr (Row.expiry row));
        ("createdAt", JStr (Row.created_at row));
        ("updatedAt", JStr (Row.updated_at row));
        ("clicks", JInt (Row.clicks row));
        ("conversions", JInt (Row.conversions row));
        ("revenue", JNum (Row.revenue row));
        ("notes", JOptStr (Row.notes row))].

(** The object exported for a row shows the row, with its blob decoded. *)
Definition exported_as (row : Row.t) (o : json) : Prop :=
  exists tags, blob_denotes (Row.tags row) tags /\ o = stored_fields row tags.

Definition shop_with_desk_calls : list (env * request) :=
  shop_calls
  ++ [(healthy "aff_10" "2024-05-08T09:00:00.000Z", call_store_affiliate_link desk)].

Definition shop_with_desk : database := serve shop_with_desk_calls open_database.

(** The primary key: no two rows of affiliate_links share an id. *)
Definition ids_unique (d : database) : Prop := NoDup (map Row.id (affiliate_links d)).

(** The link [id] is in the store and its tags column is NULL. *)
Definition untagged (id : string) (d : database) : Prop :=
  exists row, select_by_id id d = Some row /\ Row.tags row = None.

(** The filter as the specification words it: every supplied filter binds. *)
Definition spec_matches (args : ListArgs.t) (r : Row.t) : bool :=
  (match ListArgs.category args with
   | Some c => String.eqb (Row.category r) c
   | None => true
   end)
  && ((match ListArgs.program args with
       | Some p => String.eqb (Row.program r) p
       | None => true
       end)
      && ((match ListArgs.minCommission args with
           | number m => Qle_bool m (Row.commission_rate r)
           | _ => true
           end)
          && (match ListArgs.maxCommission args with
              | number m => Qle_bool (Row.commission_rate r) m
              | _ => true
              end))).

(** The listing as the specification words it: the matching links by
    descending commission rate, cut at the supplied limit, 50 if none. *)
Definition spec_list (args : ListArgs.t) (d : database) : list Row.t :=
  firstn (Z.to_nat (match ListArgs.limit args with
                    | number n => Qnum n / Z.pos (Qden n)
                    | _ => 50%Z
                    end))
         (order_by_desc commission_geb (filter (spec_matches args) (affiliate_links d))).

Definition by_commission_desc (x y : Row.t) : Prop :=
  (Row.commission_rate y <= Row.commission_rate x)%Q.

(** A bound on the commission rate that is in force: an absent bound lets
    every rate pass, a null bound lets none pass. *)
Definition at_least (bound : number_arg) (rate : Q) : Prop :=
  match bound with
  | missing => True
  | null => False
  | number m => (m <= rate)%Q
  end.

Definition at_most (bound : number_arg) (rate : Q) : Prop :=
  match bound with
  | missing => True
  | null => False
  | number m => (rate <= m)%Q
  end.

(** The row passes every filter of the request that is in force.  A category
    or program binds only when it is supplied and is not the empty string. *)
Definition passes (args : ListArgs.t) (r : Row.t) : Prop :=
  (forall c, ListArgs.category args = Some c -> c <> EmptyString -> Row.category r = c)
  /\ (forall p, ListArgs.program args = Some p -> p <> EmptyString -> Row.program r = p)
  /\ at_least (ListArgs.minCommission args) (Row.commission_rate r)
  /\ at_most (ListArgs.maxCommission args) (Row.commission_rate r).

(** What LIMIT makes of the limit argument on the ordered rows [full]:
    [Some rows] is the sequence returned, [None] is a statement refused with
    "datatype mismatch".  [dflt] is the limit of the tool when the argument is
    absent, null or 0. *)
Inductive cut_by {A : Type} (dflt : nat) (full : list A)
    : number_arg -> option (list A) -> Prop :=
| cut_missing : cut_by dflt full missing (Some (firstn dflt full))
| cut_null : cut_by dflt full null (Some (firstn dflt full))
| cut_zero (q : Q) :
    (q == 0)%Q -> cut_by dflt full (number q) (Some (firstn dflt full))
| cut_positive (q : Q) (n : Z) :
    (q == inject_Z n)%Q -> (0 < n < 2 ^ 63 - 1)%Z ->
    cut_by dflt full (number q) (Some (firstn (Z.to_nat n) full))
| cut_negative (q : Q) (n : Z) :
    (q == inject_Z n)%Q -> (- 2 ^ 63 < n < 0)%Z ->
    cut_by dflt full (number q) (Some full)
| cut_refused (q : Q) :
    (forall n, (- 2 ^ 63 < n < 2 ^ 63 - 1)%Z -> ~ (q == inject_Z n)%Q) ->
    cut_by dflt full (number q) None.

(** The reply of get_affiliate_links that lists [rows]. *)
Definition listing (rows : list Row.t) : reply :=
  success (JObj [("count", JInt (Z.of_nat (List.length rows)));
                 ("links", JArr (map listed_json rows))]).


(** The reply of the catch block for the exception [ex]. *)
Definition error_reply (ex : exception) : reply :=
  {| content := Json (error_payload (message ex)); isError := true |}.

(** A click on [id] that was answered with a success. *)
Definition click_succeeded (id : string) (e : env) (req : request) (d : database)
    : bool :=
  is_click_on id req && negb (isError (fst (tools_call e req d))).

(** A click on [id] that was answered with an error after its row had been
    written to link_clicks. *)
Definition click_uncounted (id : string) (e : env) (req : request) (d : database)
    : bool :=
  is_click_on id req
  && isError (fst (tools_call e req d))
  && Nat.ltb (List.length (link_clicks d))
             (List.length (link_clicks (snd (tools_call e req d)))).

(** How many calls of the session satisfy [test] in the state they meet. *)
Fixpoint tally (test : env -> request -> database -> bool)
    (calls : list (env * request)) (d : database) : Z :=
  match calls with
  | [] => 0%Z
  | (e, req) :: rest =>
      ((if test e req d then 1 else 0) + tally test rest (snd (tools_call e req d)))%Z
  end.

(** A link is created, a first click on it loses its UPDATE to a disk error,
    a second click succeeds. *)
Definition lost_update_clicks : list (env * request) :=
  [(second_fails "aff_11" "2024-05-08T10:00:00.000Z", click_on "aff_10");
   (healthy "aff_12" "2024-05-08T11:00:00.000Z", click_on "aff_10")].

(** ** Vocabulary of the further properties *)

(** The columns that no statement of the server ever updates. *)
Definition static (r : Row.t) :
    string * string * string * string * Q * string * option string * option string
    * string * string * option string :=
  (Row.id r, Row.program r, Row.product r, Row.link r, Row.commission_rate r,
   Row.category r, Row.tags r, Row.expiry r, Row.created_at r, Row.updated_at r,
   Row.notes r).

(** Referential integrity of link_conversions. *)
Definition no_orphan_conversions (d : database) : Prop :=
  Forall (fun c => In (Conversion.link_id c) (map Row.id (affiliate_links d)))
         (link_conversions d).

(** No statement of the session meets a disk error. *)
Definition fault_free (calls : list (env * request)) : Prop :=
  Forall (fun c => forall n, io_fail (fst c) n = false) calls.

(** The cached integer counters of a row agree with the event tables. *)
Definition counts_agree (d : database) (r : Row.t) : Prop :=
  Row.clicks r = count_clicks (Row.id r) d
  /\ Row.conversions r = count_conversions (Row.id r) d.

(** The four keys of the schema: PRIMARY KEY of each table, UNIQUE(link). *)
Definition keys_unique (d : database) : Prop :=
  NoDup (map Row.id (affiliate_links d))
  /\ NoDup (map Row.link (affiliate_links d))
  /\ NoDup (map Click.id (link_clicks d))
  /\ NoDup (map Conversion.id (link_conversions d)).





Definition newest_first (x y : Row.t) : Prop :=
  String.leb (Row.created_at y) (Row.created_at x) = true.

(** The link [id] is in the store and its tags column holds [blob]. *)
Definition tagged (id : string) (blob : option string) (d : database) : Prop :=
  exists row, select_by_id id d = Some row /\ Row.tags row = blob.


(** The cached counters of a row do not exceed what the event tables hold. *)
Definition counters_lag (d : database) (r : Row.t) : Prop :=
  (Row.clicks r <= count_clicks (Row.id r) d)%Z
  /\ (Row.conversions r <= count_conversions (Row.id r) d)%Z.

(** A line of the CSV export, read off the columns of a row: nine cells, each
    between two double quotes, the strings as they are stored. *)
Definition csv_line (r : Row.t) : template :=
  [Lit newline;
   Lit dquote; Lit (Row.id r); Lit dquote; Lit ",";
   Lit dquote; Lit (Row.program r); Lit dquote; Lit ",";
   Lit dquote; Lit (Row.product r); Lit dquote; Lit ",";
   Lit dquote; Lit (Row.link r); Lit dquote; Lit ",";
   Lit dquote; NumText (Row.commission_rate r); Lit dquote; Lit ",";
   Lit dquote; Lit (Row.category r); Lit dquote; Lit ",";
   Lit dquote; NumText (inject_Z (Row.clicks r)); Lit dquote; Lit ",";
   Lit dquote; NumText (inject_Z (Row.conversions r)); Lit dquote; Lit ",";
   Lit dquote; NumText (Row.revenue r); Lit dquote].

(** * Properties *)

(** ** Reading back a serialized array of strings *)

Section JsonText.
Import JSON.

Lemma append_snoc (acc : string) (c : ascii) (s : string) :
  (snoc acc c ++ s)%string = (acc ++ String c s)%string.
Proof.
  unfold snoc. induction acc as [|a acc IH]; simpl; [reflexivity|].
  now rewrite IH.
Qed.

Lemma append_empty_r (s : string) : (s ++ EmptyString)%string = s.
Proof. induction s as [|a s IH]; simpl; [reflexivity | now rewrite IH]. Qed.

Lemma append_append (a b c : string) :
  ((a ++ b) ++ c)%string = (a ++ (b ++ c))%string.
Proof. induction a as [|x a IH]; simpl; [reflexivity | now rewrite IH]. Qed.

(** One escaped character is read back as that character. *)
Lemma read_escape_char (c : ascii) (acc : string) (done : list string) (rest : string) :
  read (InStr acc) done (escape_char c ++ rest) = read (InStr (snoc acc c)) done rest.
Proof.
  destruct c as [[] [] [] [] [] [] [] []]; reflexivity.
Qed.

Lemma read_escape (s acc : string) (done : list string) (rest : string) :
  read (InStr acc) done (escape s ++ rest) = read (InStr (acc ++ s)) done rest.
Proof.
  revert acc. induction s as [|c s IH]; intros acc.
  - simpl. now rewrite append_empty_r.
  - cbn [escape]. rewrite append_append, read_escape_char, IH.
    now rewrite append_snoc.
Qed.

Lemma read_quoted (s : string) (done : list string) (rest : string) :
  read (InStr EmptyString) done (escape s ++ String quote rest)
  = read AfterStr (done ++ [s]) rest.
Proof. rewrite read_escape. reflexivity. Qed.

Lemma read_join (l : list string) :
  forall (s : string) (done : list string) (st : state),
    st = Opened \/ st = AfterComma ->
    read st done (join_quoted (s :: l) ++ "]") = Some (done ++ s :: l).
Proof.
  induction l as [|s' l IH]; intros s done st Hst.
  - cbn [join_quoted]. unfold quoted. cbn [append].
    rewrite append_append. cbn [append].
    destruct Hst as [-> | ->]; cbn [read];
      change (is_space quote) with false; cbn [Ascii.eqb];
      change (Ascii.eqb quote quote) with true; cbv iota;
      rewrite read_quoted; reflexivity.
  - change (join_quoted (s :: s' :: l))
      with (quoted s ++ String "," (join_quoted (s' :: l)))%string.
    unfold quoted at 1. cbn [append]. rewrite !append_append. cbn [append].
    destruct Hst as [-> | ->]; cbn [read];
      change (is_space quote) with false;
      change (Ascii.eqb quote quote) with true; cbv iota;
      try change (Ascii.eqb quote "]") with false; cbv iota;
      rewrite read_quoted; cbn [read];
      change (is_space ",") with false; change (Ascii.eqb "," ",") with true;
      cbv iota; rewrite (IH s' (done ++ [s]) AfterComma) by (now right);
      now rewrite <- app_assoc.
Qed.

(** JSON.parse(JSON.stringify(tags)) gives the array back. *)
Lemma parse_stringify (tags : list string) : parse (stringify tags) = Some tags.
Proof.
  unfold parse, stringify. destruct tags as [|s l].
  - reflexivity.
  - cbn [read]. change (is_space "[") with false.
    change (Ascii.eqb "[" "[") with true. cbv iota.
    now rewrite (read_join l s [] Opened) by (now left).
Qed.

(** A serialized array is never the empty (falsy) string. *)
Lemma stringify_truthy (tags : list string) :
  exists c rest, stringify tags = String c rest.
Proof. unfold stringify. eauto. Qed.

End JsonText.

(** ** ORDER BY and LIMIT *)

Section OrderBy.
Context {A : Type} (geb : A -> A -> bool).

Lemma insert_desc_perm (x : A) (l : list A) :
  Permutation (x :: l) (insert_desc geb x l).
Proof.
  induction l as [|y l IH]; simpl; [reflexivity|].
  destruct (geb x y); [reflexivity|].
  rewrite perm_swap. now constructor.
Qed.

Lemma order_by_desc_perm (l : list A) : Permutation (order_by_desc geb l) l.
Proof.
  induction l as [|x l IH]; simpl; [constructor|].
  unfold order_by_desc in *. rewrite <- insert_desc_perm. now constructor.
Qed.

Hypothesis geb_total : forall x y, geb x y = true \/ geb y x = true.
Hypothesis geb_trans :
  forall x y z, geb x y = true -> geb y z = true -> geb x z = true.

Let before (x y : A) : Prop := geb x y = true.

Lemma insert_desc_sorted (x : A) (l : list A) :
  StronglySorted before l -> StronglySorted before (insert_desc geb x l).
Proof.
  induction 1 as [|y l Hs IH Hall]; simpl.
  - repeat constructor.
  - destruct (geb x y) eqn:Hxy.
    + constructor; [now constructor|].
      constructor; [exact Hxy|].
      eapply Forall_impl; [|exact Hall]. intros z Hz. eapply geb_trans; eauto.
    + constructor; [exact IH|].
      eapply Permutation_Forall; [apply insert_desc_perm|].
      constructor; [|exact Hall].
      destruct (geb_total x y) as [H|H]; [congruence | exact H].
Qed.

Lemma order_by_desc_sorted (l : list A) : StronglySorted before (order_by_desc geb l).
Proof.
  induction l as [|x l IH]; simpl; [constructor|].
  now apply insert_desc_sorted.
Qed.
End OrderBy.

Lemma commission_geb_total (x y : Row.t) :
  commission_geb x y = true \/ commission_geb y x = true.
Proof.
  unfold commission_geb. rewrite !Qle_bool_iff.
  destruct (Qlt_le_dec (Row.commission_rate x) (Row.commission_rate y)) as [H|H].
  - right. now apply Qlt_le_weak.
  - now left.
Qed.

Lemma commission_geb_trans (x y z : Row.t) :
  commission_geb x y = true -> commission_geb y z = true -> commission_geb x z = true.
Proof.
  unfold commission_geb. rewrite !Qle_bool_iff. intros H1 H2.
  eapply Qle_trans; eauto.
Qed.

Lemma limit_rows_prefix {A} (n : Z) (l : list A) :
  exists rest, l = limit_rows n l ++ rest.
Proof.
  unfold limit_rows. destruct (n <? 0)%Z.
  - exists []. now rewrite app_nil_r.
  - exists (skipn (Z.to_nat n) l). now rewrite firstn_skipn.
Qed.

Lemma limit_rows_length {A} (n : Z) (l : list A) :
  (0 <= n)%Z -> List.length (limit_rows n l) = Nat.min (Z.to_nat n) (List.length l).
Proof.
  intros Hn. unfold limit_rows.
  destruct (Z.ltb_spec n 0); [lia|]. apply length_firstn.
Qed.

(** ** Keys *)

Lemma mem_In (s : string) (l : list string) : mem s l = true <-> In s l.
Proof.
  unfold mem. rewrite existsb_exists. split.
  - intros [x [Hin Heq]]. apply String.eqb_eq in Heq. now subst.
  - intros H. exists s. split; [exact H | apply String.eqb_refl].
Qed.

Lemma mem_false (s : string) (l : list string) : mem s l = false <-> ~ In s l.
Proof.
  rewrite <- mem_In. destruct (mem s l); split; intros; congruence.
Qed.

Lemma select_by_id_None (id : string) (d : database) :
  select_by_id id d = None <-> ~ In id (map Row.id (affiliate_links d)).
Proof.
  unfold select_by_id. induction (affiliate_links d) as [|r rows IH]; simpl.
  - tauto.
  - destruct (String.eqb_spec (Row.id r) id) as [Heq|Hne].
    + split; [discriminate | intros H; exfalso; apply H; now left].
    + rewrite IH. tauto.
Qed.

Lemma select_by_id_Some (id : string) (d : database) (r : Row.t) :
  select_by_id id d = Some r -> In r (affiliate_links d) /\ Row.id r = id.
Proof.
  unfold select_by_id. intros H. apply find_some in H.
  destruct H as [Hin Heq]. now apply String.eqb_eq in Heq.
Qed.

(** ** What one call can do to the store *)

(** store_affiliate_link either writes its row or writes nothing. *)
Lemma store_cases (e : env) (args : StoreArgs.t) (d : database) :
  let out := tools_call e (call_store_affiliate_link args) d in
  (isError (fst out) = true /\ snd out = d)
  \/ (isError (fst out) = false
      /\ ~ In (generateId e) (map Row.id (affiliate_links d))
      /\ ~ In (StoreArgs.link args) (map Row.link (affiliate_links d))
      /\ snd out = link_stored (row_of e args) d).
Proof.
  cbv zeta. unfold tools_call, dispatch, store_affiliate_link, bind, insert_link.
  destruct (io_fail e 0); [left; now split|].
  destruct (mem (StoreArgs.link args) _) eqn:Hlink; [left; now split|].
  destruct (mem (generateId e) _) eqn:Hid; [left; now split|].
  right. apply mem_false in Hid, Hlink. repeat split; assumption.
Qed.

(** track_click: the INSERT is refused, or the INSERT is committed and the
    UPDATE fails, or both statements are committed. *)
Lemma track_click_cases (e : env) (args : ClickArgs.t) (d : database) :
  let out := tools_call e (call_track_click args) d in
  let id := ClickArgs.linkId args in
  (isError (fst out) = true /\ snd out = d)
  \/ (parent_exists d id = true /\ io_fail e 1 = true
      /\ failed (fst out) IOERR
      /\ snd out = click_logged (click_of e args) d)
  \/ (parent_exists d id = true /\ isError (fst out) = false
      /\ snd out = click_counted id (click_logged (click_of e args) d)).
Proof.
  cbv zeta. unfold tools_call, dispatch, track_click, bind, insert_click, update_clicks.
  fold (click_of e args).
  destruct (io_fail e 0); [left; now split|].
  destruct (mem (Click.id (click_of e args)) _); [left; now split|].
  change (Click.link_id (click_of e args)) with (ClickArgs.linkId args).
  destruct (parent_exists d (ClickArgs.linkId args)) eqn:Hp; cbn [negb];
    [|left; now split].
  right. destruct (io_fail e 1); [left | right]; repeat split.
Qed.

Lemma track_conversion_cases (e : env) (args : ConversionArgs.t) (d : database) :
  let out := tools_call e (call_track_conversion args) d in
  let id := ConversionArgs.linkId args in
  (isError (fst out) = true /\ snd out = d)
  \/ (parent_exists d id = true /\ io_fail e 1 = true
      /\ failed (fst out) IOERR
      /\ snd out = conversion_logged (conversion_of e args) d)
  \/ (parent_exists d id = true /\ isError (fst out) = false
      /\ snd out = conversion_counted (ConversionArgs.amount args) id
                     (conversion_logged (conversion_of e args) d)).
Proof.
  cbv zeta.
  unfold tools_call, dispatch, track_conversion, bind, insert_conversion,
    update_conversions.
  fold (conversion_of e args).
  destruct (io_fail e 0); [left; now split|].
  destruct (mem (Conversion.id (conversion_of e args)) _); [left; now split|].
  change (Conversion.link_id (conversion_of e args)) with (ConversionArgs.linkId args).
  destruct (parent_exists d (ConversionArgs.linkId args)) eqn:Hp; cbn [negb];
    [|left; now split].
  right. destruct (io_fail e 1); [left | right]; repeat split.
Qed.

(** The five reading tools and the unknown-tool reply leave the store as it is. *)
Lemma reads_keep (e : env) (req : request) (d : database) :
  match req with
  | call_store_affiliate_link _ | call_track_click _ | call_track_conversion _ => True
  | _ => snd (tools_call e req d) = d
  end.
Proof.
  destruct req; try exact I; unfold tools_call, dispatch.
  - unfold get_affiliate_links. destruct args as [args|]; [|reflexivity].
    destruct (as_limit _); reflexivity.
  - unfold get_best_link. destruct (select_links _ _ _); reflexivity.
  - unfold search_links. destruct (as_limit _); reflexivity.
  - unfold get_stats, bind, getAffiliateLink.
    destruct (select_by_id _ _); [|reflexivity].
    destruct (to_link _); reflexivity.
  - unfold export_links, bind, getAllAffiliateLinks.
    destruct (map_result _ _); [|reflexivity].
    destruct (String.eqb _ _); reflexivity.
  - reflexivity.
Qed.

Lemma tools_call_step (e : env) (req : request) (d : database) :
  step d req (snd (tools_call e req d)).
Proof.
  pose proof (reads_keep e req d) as Hread.
  destruct req; try (rewrite Hread; constructor).
  - destruct (store_cases e args d) as [[_ ->] | (_ & Hid & Hlink & ->)];
      now constructor.
  - destruct (track_click_cases e args d)
      as [[_ ->] | [(Hp & _ & _ & ->) | (Hp & _ & ->)]]; now constructor.
  - destruct (track_conversion_cases e args d)
      as [[_ ->] | [(Hp & _ & _ & ->) | (Hp & _ & ->)]]; now constructor.
Qed.

(** An invariant of [step] holds in every state a session reaches. *)
Lemma serve_invariant (P : database -> Prop) :
  (forall d req d', step d req d' -> P d -> P d') ->
  forall calls d, P d -> P (serve calls d).
Proof.
  intros Hstep calls. induction calls as [|[e req] calls IH]; intros d Hd; simpl.
  - exact Hd.
  - apply IH. eapply Hstep; [apply tools_call_step | exact Hd].
Qed.

Lemma reachable_invariant (P : database -> Prop) :
  (forall fk, P (fresh_database fk)) ->
  (forall d req d', step d req d' -> P d -> P d') ->
  forall d, reachable d -> P d.
Proof.
  intros H0 Hstep d (fk & calls & ->). now apply serve_invariant.
Qed.

Lemma serve_app (c1 c2 : list (env * request)) (d : database) :
  serve (c1 ++ c2) d = serve c2 (serve c1 d).
Proof.
  revert d. induction c1 as [|[e req] c1 IH]; intros d; simpl; [reflexivity|].
  apply IH.
Qed.

Lemma reachable_serve (calls : list (env * request)) (d : database) :
  reachable d -> reachable (serve calls d).
Proof.
  intros (fk & c0 & ->). exists fk, (c0 ++ calls). now rewrite serve_app.
Qed.

(** ** Scenarios of the specification, run on the model *)

(** Revenue accumulation: sales of 10 and of 22.5 leave revenue 32.5 and two
    conversions on the link. *)
Example revenue_accumulates :
  option_map (fun r => (Qeq_bool (Row.revenue r) (65 # 2), Row.conversions r))
             (select_by_id "aff_1" (serve two_sales shop))
  = Some (true, 2%Z).
Proof. reflexivity. Qed.

(** get_best_link returns the chair for its category, and an explicit
    not-found payload, not an error, for a category without links. *)
Example best_link_scenario :
  field "id" (fst (tools_call (healthy "aff_40" "2024-05-11T09:00:00.000Z")
                              (call_get_best_link "office-furniture") shop))
  = Some (JStr "aff_1")
  /\ fst (tools_call (healthy "aff_40" "2024-05-11T09:00:00.000Z")
                     (call_get_best_link "toys") shop)
     = success (error_payload "No links found for category: toys").
Proof. split; reflexivity. Qed.

(** LIKE matches a substring without regard to the case of ASCII letters. *)
Example search_scenario :
  field "count" (fst (tools_call (healthy "aff_41" "2024-05-11T10:00:00.000Z")
                                 (call_search_links (SearchArgs.mk "CHAIR" missing)) shop))
  = Some (JInt 1)
  /\ field "count" (fst (tools_call (healthy "aff_41" "2024-05-11T10:00:00.000Z")
                                    (call_search_links (SearchArgs.mk "sofa" missing)) shop))
     = Some (JInt 0).
Proof. split; reflexivity. Qed.

(** ** C1: the event insert and the counter update *)

(** C1, as the specification words it, fails: the second statement of
    track_click meets a disk error, the call reports the failure, and yet the
    click row stays in link_clicks while the cached counter of the link has
    not moved. *)
Lemma C1_event_survives_failed_update :
  let out := tools_call (second_fails "aff_2" "2024-05-02T08:00:00.000Z")
                        (click_on "aff_1") shop in
  isError (fst out) = true
  /\ count_clicks "aff_1" (snd out) = 1%Z
  /\ option_map Row.clicks (select_by_id "aff_1" (snd out)) = Some 0%Z
  /\ snd out <> shop.
Proof. repeat split. discriminate. Qed.

(** C1 (amended): track_click and track_conversion run the INSERT of the event
    and the UPDATE of the counters as two statements that commit one by one.
    Either the INSERT is refused and the store is untouched; or the INSERT is
    committed and the UPDATE fails, leaving the event row without the counter
    change; or the call succeeds and both are in the store. *)
Theorem C1_statements_commit_one_by_one (e : env) (d : database) :
  (forall args : ClickArgs.t,
      let out := tools_call e (call_track_click args) d in
      (isError (fst out) = true /\ snd out = d)
      \/ (isError (fst out) = true /\ io_fail e 1 = true
          /\ link_clicks (snd out) = link_clicks d ++ [click_of e args]
          /\ affiliate_links (snd out) = affiliate_links d
          /\ link_conversions (snd out) = link_conversions d)
      \/ (isError (fst out) = false
          /\ link_clicks (snd out) = link_clicks d ++ [click_of e args]
          /\ affiliate_links (snd out)
             = update_where_id bump_clicks (ClickArgs.linkId args) (affiliate_links d)
          /\ link_conversions (snd out) = link_conversions d))
  /\ (forall args : ConversionArgs.t,
      let out := tools_call e (call_track_conversion args) d in
      (isError (fst out) = true /\ snd out = d)
      \/ (isError (fst out) = true /\ io_fail e 1 = true
          /\ link_conversions (snd out) = link_conversions d ++ [conversion_of e args]
          /\ affiliate_links (snd out) = affiliate_links d
          /\ link_clicks (snd out) = link_clicks d)
      \/ (isError (fst out) = false
          /\ link_conversions (snd out) = link_conversions d ++ [conversion_of e args]
          /\ affiliate_links (snd out)
             = update_where_id (bump_conversions (ConversionArgs.amount args))
                               (ConversionArgs.linkId args) (affiliate_links d)
          /\ link_clicks (snd out) = link_clicks d)).
Proof.
  split; intros args; cbv zeta.
  - destruct (track_click_cases e args d)
      as [H | [(_ & Hio & Hf & Hd) | (_ & Hok & Hd)]].
    + now left.
    + right; left. rewrite Hd, Hf. repeat split. exact Hio.
    + right; right. rewrite Hd. repeat split. exact Hok.
  - destruct (track_conversion_cases e args d)
      as [H | [(_ & Hio & Hf & Hd) | (_ & Hok & Hd)]].
    + now left.
    + right; left. rewrite Hd, Hf. repeat split. exact Hio.
    + right; right. rewrite Hd. repeat split. exact Hok.
Qed.

(** ** C5: the UNIQUE constraint on the link URL *)

(** C5: storing a link whose URL is already in affiliate_links fails and
    leaves the store, and so the first link's row, exactly as it was.  The
    error is the violation of the UNIQUE constraint on link (DuplicateLink)
    whenever the statement gets as far as that check: no disk error, and a
    generated id that is not taken. *)
Theorem C5_duplicate_link_rejected (e : env) (args : StoreArgs.t) (d : database) :
  In (StoreArgs.link args) (map Row.link (affiliate_links d)) ->
  let out := tools_call e (call_store_affiliate_link args) d in
  snd out = d
  /\ isError (fst out) = true
  /\ (io_fail e 0 = false ->
      ~ In (generateId e) (map Row.id (affiliate_links d)) ->
      failed (fst out) DuplicateLink).
Proof.
  intros Hdup. cbv zeta. apply mem_In in Hdup.
  unfold tools_call, dispatch, store_affiliate_link, bind, insert_link, failed.
  destruct (io_fail e 0).
  - repeat split. discriminate.
  - rewrite Hdup. repeat split.
Qed.

Lemma C5_duplicate_link_rejected_witness :
  In (StoreArgs.link chair) (map Row.link (affiliate_links shop))
  /\ snd (tools_call (healthy "aff_2" "2024-05-03T09:00:00.000Z")
                     (call_store_affiliate_link chair) shop) = shop.
Proof.
  split.
  - simpl. left. reflexivity.
  - apply (C5_duplicate_link_rejected
             (healthy "aff_2" "2024-05-03T09:00:00.000Z") chair shop).
    simpl. left. reflexivity.
Defined.

(** ** C9: track_click on an id that names no link *)

Lemma update_where_id_absent (f : Row.t -> Row.t) (id : string) (rows : list Row.t) :
  ~ In id (map Row.id rows) -> update_where_id f id rows = rows.
Proof.
  unfold update_where_id. induction rows as [|r rows IH]; simpl; intros H.
  - reflexivity.
  - destruct (String.eqb_spec (Row.id r) id) as [Heq|Hne].
    + exfalso. apply H. now left.
    + rewrite IH; [reflexivity|]. intros Hin. apply H. now right.
Qed.

(** C9, as the specification words it, fails on the store the server opens:
    the foreign key of link_clicks refuses the row, the call answers with an
    error, and link_clicks stays empty. *)
Lemma C9_orphan_click_refused :
  let out := tools_call (healthy "aff_9" "2024-05-02T08:00:00.000Z")
                        (click_on "aff_0") open_database in
  select_by_id "aff_0" open_database = None
  /\ failed (fst out) FOREIGN_KEY_failed
  /\ link_clicks (snd out) = [].
Proof. repeat split. Qed.

(** C9 (amended): for a linkId that names no link, track_click never changes
    an affiliate_links record.  With foreign keys enforced (the setting the
    store is opened with) the INSERT is refused: no click row is written and
    the reply is the foreign-key error.  Only with enforcement off is the
    click row written, and the reply is then a success when the UPDATE, which
    touches no row, does not fail. *)
Theorem C9_click_on_unknown_link (e : env) (args : ClickArgs.t) (d : database) :
  select_by_id (ClickArgs.linkId args) d = None ->
  let out := tools_call e (call_track_click args) d in
  affiliate_links (snd out) = affiliate_links d
  /\ (io_fail e 0 = false ->
      ~ In (generateId e) (map Click.id (link_clicks d)) ->
      if foreign_keys d
      then failed (fst out) FOREIGN_KEY_failed /\ snd out = d
      else link_clicks (snd out) = link_clicks d ++ [click_of e args]
           /\ (io_fail e 1 = false -> isError (fst out) = false)).
Proof.
  intros Hnone. cbv zeta. apply select_by_id_None in Hnone.
  pose proof (update_where_id_absent bump_clicks _ _ Hnone) as Hupd.
  apply mem_false in Hnone.
  unfold tools_call, dispatch, track_click, bind, insert_click, update_clicks,
    parent_exists, failed.
  fold (click_of e args).
  change (Click.link_id (click_of e args)) with (ClickArgs.linkId args).
  change (Click.id (click_of e args)) with (generateId e).
  rewrite Hnone, orb_false_r, negb_involutive.
  destruct (io_fail e 0); [split; [reflexivity | discriminate]|].
  destruct (mem (generateId e) _) eqn:Hid.
  - split; [reflexivity|]. intros _ Hfresh. apply mem_In in Hid. contradiction.
  - destruct (foreign_keys d); [now repeat split|].
    destruct (io_fail e 1); cbn [snd fst affiliate_links set_links set_clicks link_clicks].
    + repeat split. discriminate.
    + rewrite Hupd. repeat split.
Qed.

Lemma C9_click_on_unknown_link_witness :
  select_by_id "aff_0" shop = None
  /\ affiliate_links
       (snd (tools_call (healthy "aff_9" "2024-05-02T08:00:00.000Z")
                        (click_on "aff_0") shop))
     = affiliate_links shop.
Proof.
  split.
  - reflexivity.
  - apply (C9_click_on_unknown_link
             (healthy "aff_9" "2024-05-02T08:00:00.000Z")
             (ClickArgs.mk "aff_0" None None) shop).
    reflexivity.
Defined.

(** ** The tags column *)

Lemma parse_tags_denotes (blob : option string) (tags : list string) :
  blob_denotes blob tags -> parse_tags blob = Ok tags.
Proof.
  intros [[-> ->] | ->]; [reflexivity|].
  unfold parse_tags. destruct (stringify_truthy tags) as (c & rest & Hs).
  rewrite Hs, <- Hs. now rewrite parse_stringify.
Qed.

Lemma to_link_denotes (row : Row.t) (tags : list string) :
  blob_denotes (Row.tags row) tags -> to_link row = Ok (link_of row tags).
Proof. intros H. unfold to_link. now rewrite (parse_tags_denotes _ _ H). Qed.

Lemma Forall_update_where_id (P : Row.t -> Prop) (f : Row.t -> Row.t) (id : string)
    (rows : list Row.t) :
  (forall r, P r -> P (f r)) -> Forall P rows -> Forall P (update_where_id f id rows).
Proof.
  intros Hf. unfold update_where_id. induction 1 as [|r rows Hr _ IH]; simpl.
  - constructor.
  - constructor; [|exact IH]. destruct (String.eqb _ _); auto.
Qed.

Lemma blobs_ok_step (d : database) (req : request) (d' : database) :
  step d req d' -> blobs_ok d -> blobs_ok d'.
Proof.
  unfold blobs_ok. intros Hstep Hd. destruct Hstep; cbn; try exact Hd.
  - apply Forall_app. split; [exact Hd|]. constructor; [|constructor].
    cbn. destruct (StoreArgs.tags args) as [tags|].
    + exists tags. now right.
    + exists []. now left.
  - apply Forall_update_where_id; [|exact Hd]. now intros r.
  - apply Forall_update_where_id; [|exact Hd]. now intros r.
Qed.

Lemma reachable_blobs_ok (d : database) : reachable d -> blobs_ok d.
Proof.
  apply reachable_invariant; [intros fk; constructor | exact blobs_ok_step].
Qed.

(** ** Looking a link up after a call *)

Lemma select_link_stored (id : string) (r row : Row.t) (d : database) :
  select_by_id id d = Some row -> select_by_id id (link_stored r d) = Some row.
Proof.
  unfold select_by_id, link_stored. cbn. intros H.
  induction (affiliate_links d) as [|x rows IH]; simpl in *; [discriminate|].
  destruct (String.eqb (Row.id x) id); [exact H | now apply IH].
Qed.

Lemma select_update (f : Row.t -> Row.t) (id id' : string) (d : database) :
  (forall r, Row.id (f r) = Row.id r) ->
  select_by_id id (set_links d (update_where_id f id' (affiliate_links d)))
  = option_map (fun r => if String.eqb (Row.id r) id' then f r else r)
               (select_by_id id d).
Proof.
  intros Hf. unfold select_by_id, update_where_id. cbn.
  induction (affiliate_links d) as [|x rows IH]; simpl; [reflexivity|].
  assert (Hid : Row.id (if String.eqb (Row.id x) id' then f x else x) = Row.id x)
    by (destruct (String.eqb (Row.id x) id'); [apply Hf | reflexivity]).
  rewrite Hid. destruct (String.eqb (Row.id x) id); [reflexivity | exact IH].
Qed.

Lemma update_where_id_ids (f : Row.t -> Row.t) (id : string) (rows : list Row.t) :
  (forall r, Row.id (f r) = Row.id r) ->
  map Row.id (update_where_id f id rows) = map Row.id rows.
Proof.
  intros Hf. unfold update_where_id. induction rows as [|r rows IH]; simpl.
  - reflexivity.
  - rewrite IH. f_equal. destruct (String.eqb _ _); [apply Hf | reflexivity].
Qed.

Lemma bump_clicks_id (r : Row.t) : Row.id (bump_clicks r) = Row.id r.
Proof. reflexivity. Qed.

Lemma bump_conversions_id (amount : Q) (r : Row.t) :
  Row.id (bump_conversions amount r) = Row.id r.
Proof. reflexivity. Qed.

(** ** C2 and C8: get_stats *)

(** C2, as the specification words it, fails for revenue: get_stats reports
    the revenue column of the link record (0 here), not the sum of the
    conversion rows (10 here), while conversions is the live count 1. *)
Lemma C2_revenue_read_from_link_record :
  let out := tools_call (healthy "aff_4" "2024-05-05T12:00:00.000Z")
                        (call_get_stats "aff_1") shop_after_failed_sale in
  field "revenue" (fst out) = Some (JNum 0%Q)
  /\ field "conversions" (fst out) = Some (JInt 1)
  /\ Qeq_bool (sum_of_amounts "aff_1" shop_after_failed_sale) (10 # 1) = true
  /\ Qeq_bool (sum_of_amounts "aff_1" shop_after_failed_sale) 0%Q = false.
Proof. repeat split. Qed.

Lemma get_stats_reply (e : env) (d : database) (linkId : string) (row : Row.t) :
  blobs_ok d ->
  select_by_id linkId d = Some row ->
  tools_call e (call_get_stats linkId) d
  = (success
       (JObj [("linkId", JStr linkId);
              ("product", JStr (Row.product row));
              ("program", JStr (Row.program row));
              ("clicks", JInt (count_clicks linkId d));
              ("conversions", JInt (count_conversions linkId d));
              ("revenue", JNum (Row.revenue row));
              ("conversionRate",
               conversionRate (count_clicks linkId d) (count_conversions linkId d))]),
     d).
Proof.
  intros Hok Hsel. unfold tools_call, dispatch, get_stats, bind, getAffiliateLink.
  rewrite Hsel.
  destruct (select_by_id_Some _ _ _ Hsel) as [Hin _].
  unfold blobs_ok in Hok. rewrite Forall_forall in Hok.
  destruct (Hok row Hin) as [tags Htags].
  rewrite (to_link_denotes _ _ Htags). reflexivity.
Qed.

(** C2 (amended): for every existing linkId, get_stats returns clicks and
    conversions as the numbers of rows of link_clicks and link_conversions
    that reference the link, and returns as revenue the revenue column cached
    on the affiliate_links record. *)
Theorem C2_get_stats_sources (e : env) (d : database) (linkId : string) (row : Row.t) :
  reachable d ->
  select_by_id linkId d = Some row ->
  let out := tools_call e (call_get_stats linkId) d in
  isError (fst out) = false
  /\ field "clicks" (fst out)
     = Some (JInt (Z.of_nat (List.length
          (filter (fun c => String.eqb (Click.link_id c) linkId) (link_clicks d)))))
  /\ field "conversions" (fst out)
     = Some (JInt (Z.of_nat (List.length
          (filter (fun c => String.eqb (Conversion.link_id c) linkId)
                  (link_conversions d)))))
  /\ field "revenue" (fst out) = Some (JNum (Row.revenue row))
  /\ snd out = d.
Proof.
  intros Hreach Hsel. cbv zeta.
  rewrite (get_stats_reply e d linkId row (reachable_blobs_ok d Hreach) Hsel).
  repeat split.
Qed.

Lemma C2_get_stats_sources_witness :
  reachable shop_after_failed_sale
  /\ field "revenue"
       (fst (tools_call (healthy "aff_4" "2024-05-05T12:00:00.000Z")
                        (call_get_stats "aff_1") shop_after_failed_sale))
     = Some (JNum 0%Q).
Proof.
  assert (Hr : reachable shop_after_failed_sale)
    by (exists true, failed_sale_calls; reflexivity).
  split; [exact Hr|].
  refine (proj1 (proj2 (proj2 (proj2
    (C2_get_stats_sources (healthy "aff_4" "2024-05-05T12:00:00.000Z")
       shop_after_failed_sale "aff_1"
       (Row.mk "aff_1" "Amazon" "Ergonomic chair" "https://example.com/chair" (9 # 2)
               "office-furniture" None None "2024-05-01T10:00:00.000Z"
               "2024-05-01T10:00:00.000Z" 0 0 0%Q None)
       Hr eq_refl))))).
Defined.

(** C8: for an existing link with no click rows, get_stats succeeds and its
    conversionRate is the string "0%": the division is never evaluated. *)
Theorem C8_zero_clicks_rate (e : env) (d : database) (linkId : string) (row : Row.t) :
  reachable d ->
  select_by_id linkId d = Some row ->
  count_clicks linkId d = 0%Z ->
  let out := tools_call e (call_get_stats linkId) d in
  isError (fst out) = false
  /\ field "clicks" (fst out) = Some (JInt 0)
  /\ field "conversionRate" (fst out) = Some (JStr "0%").
Proof.
  intros Hreach Hsel Hzero. cbv zeta.
  rewrite (get_stats_reply e d linkId row (reachable_blobs_ok d Hreach) Hsel).
  rewrite Hzero. repeat split.
Qed.

Lemma C8_zero_clicks_rate_witness :
  reachable shop
  /\ count_clicks "aff_1" shop = 0%Z
  /\ field "conversionRate"
       (fst (tools_call (healthy "aff_4" "2024-05-05T12:00:00.000Z")
                        (call_get_stats "aff_1") shop))
     = Some (JStr "0%").
Proof.
  assert (Hr : reachable shop) by (exists true, shop_calls; reflexivity).
  split; [exact Hr|]. split; [reflexivity|].
  refine (proj2 (proj2
    (C8_zero_clicks_rate (healthy "aff_4" "2024-05-05T12:00:00.000Z") shop "aff_1"
       (Row.mk "aff_1" "Amazon" "Ergonomic chair" "https://example.com/chair" (9 # 2)
               "office-furniture" None None "2024-05-01T10:00:00.000Z"
               "2024-05-01T10:00:00.000Z" 0 0 0%Q None)
       Hr eq_refl eq_refl))).
Defined.

(** ** C3: revenue over a session *)

(** C3, as the specification words it, fails: a conversion with a negative
    amount is accepted and lowers the revenue of the link from 0 to -5. *)
Lemma C3_negative_amount_lowers_revenue :
  let out := tools_call (healthy "aff_5" "2024-05-06T12:00:00.000Z")
                        (sale_on "aff_1" (-5 # 1)) shop in
  isError (fst out) = false
  /\ option_map Row.revenue (select_by_id "aff_1" shop) = Some 0%Q
  /\ option_map Row.revenue (select_by_id "aff_1" (snd out)) = Some (0 + (-5 # 1))%Q
  /\ ~ (0 <= 0 + (-5 # 1))%Q.
Proof. repeat split. intros H. now apply H. Qed.

Lemma select_click_logged (id : string) (c : Click.t) (d : database) :
  select_by_id id (click_logged c d) = select_by_id id d.
Proof. reflexivity. Qed.

Lemma select_conversion_logged (id : string) (c : Conversion.t) (d : database) :
  select_by_id id (conversion_logged c d) = select_by_id id d.
Proof. reflexivity. Qed.

Lemma Qle_plus_nonneg (x a : Q) : (0 <= a)%Q -> (x <= x + a)%Q.
Proof.
  intros Ha. apply Qle_trans with (x + 0)%Q.
  - rewrite Qplus_0_r. apply Qle_refl.
  - apply Qplus_le_compat; [apply Qle_refl | exact Ha].
Qed.

Lemma revenue_step (d : database) (req : request) (d' : database) (id : string)
    (row : Row.t) :
  step d req d' ->
  amount_nonneg req ->
  select_by_id id d = Some row ->
  exists row', select_by_id id d' = Some row' /\ (Row.revenue row <= Row.revenue row')%Q.
Proof.
  intros Hstep Hamt Hsel. destruct Hstep.
  - exists row. split; [exact Hsel | apply Qle_refl].
  - exists row. split; [now apply select_link_stored | apply Qle_refl].
  - exists row. split; [exact Hsel | apply Qle_refl].
  - unfold click_counted. rewrite select_update by apply bump_clicks_id.
    rewrite select_click_logged, Hsel. cbn [option_map].
    eexists. split; [reflexivity|].
    destruct (String.eqb _ _); apply Qle_refl.
  - exists row. split; [exact Hsel | apply Qle_refl].
  - unfold conversion_counted. rewrite select_update by apply bump_conversions_id.
    rewrite select_conversion_logged, Hsel. cbn [option_map].
    eexists. split; [reflexivity|].
    destruct (String.eqb _ _); [|apply Qle_refl].
    cbn [bump_conversions Row.revenue]. now apply Qle_plus_nonneg.
Qed.

(** C3 (amended): over every session in which no track_conversion carries a
    negative amount, the revenue of every link is non-decreasing: the link is
    still there afterwards and its revenue is at least what it was. *)
Theorem C3_revenue_non_decreasing (calls : list (env * request)) :
  Forall (fun c => amount_nonneg (snd c)) calls ->
  forall (d : database) (id : string) (row : Row.t),
    select_by_id id d = Some row ->
    exists row',
      select_by_id id (serve calls d) = Some row'
      /\ (Row.revenue row <= Row.revenue row')%Q.
Proof.
  induction 1 as [|[e req] calls Hamt _ IH]; intros d id row Hsel.
  - exists row. split; [exact Hsel | apply Qle_refl].
  - cbn [serve].
    destruct (revenue_step d req _ id row (tools_call_step e req d) Hamt Hsel)
      as (row1 & Hsel1 & Hle1).
    destruct (IH _ id row1 Hsel1) as (row2 & Hsel2 & Hle2).
    exists row2. split; [exact Hsel2 | eapply Qle_trans; eauto].
Qed.

Lemma C3_revenue_non_decreasing_witness :
  Forall (fun c => amount_nonneg (snd c)) two_sales
  /\ exists row',
      select_by_id "aff_1" (serve two_sales shop) = Some row'
      /\ (0 <= Row.revenue row')%Q.
Proof.
  assert (H : Forall (fun c => amount_nonneg (snd c)) two_sales)
    by (repeat constructor; discriminate).
  split; [exact H|].
  exact (C3_revenue_non_decreasing two_sales H shop "aff_1"
           (Row.mk "aff_1" "Amazon" "Ergonomic chair" "https://example.com/chair" (9 # 2)
                   "office-furniture" None None "2024-05-01T10:00:00.000Z"
                   "2024-05-01T10:00:00.000Z" 0 0 0%Q None)
           eq_refl).
Defined.

(** ** C4: the cached click counter *)

Lemma count_clicks_logged (id : string) (c : Click.t) (d : database) :
  count_clicks id (click_logged c d)
  = (count_clicks id d + (if String.eqb (Click.link_id c) id then 1 else 0))%Z.
Proof.
  unfold count_clicks, click_logged. cbn.
  rewrite filter_app, length_app. cbn.
  destruct (String.eqb (Click.link_id c) id); cbn; lia.
Qed.

Lemma cached_clicks_counted (id id' : string) (d : database) :
  cached_clicks id (click_counted id' d)
  = option_map (fun n => if String.eqb id id' then (n + 1)%Z else n) (cached_clicks id d).
Proof.
  unfold cached_clicks, click_counted.
  rewrite select_update by apply bump_clicks_id.
  destruct (select_by_id id d) as [row|] eqn:Hsel; [|reflexivity].
  apply select_by_id_Some in Hsel. destruct Hsel as [_ Hid].
  cbn [option_map]. rewrite Hid. now destruct (String.eqb id id').
Qed.

Lemma cached_clicks_conversion_counted (id id' : string) (amount : Q) (d : database) :
  cached_clicks id (conversion_counted amount id' d) = cached_clicks id d.
Proof.
  unfold cached_clicks, conversion_counted.
  rewrite select_update by apply bump_conversions_id.
  destruct (select_by_id id d) as [row|]; [|reflexivity].
  cbn [option_map]. now destruct (String.eqb (Row.id row) id').
Qed.

Lemma cached_clicks_stored (id : string) (r : Row.t) (d : database) (n : Z) :
  cached_clicks id d = Some n -> cached_clicks id (link_stored r d) = Some n.
Proof.
  unfold cached_clicks. destruct (select_by_id id d) as [row|] eqn:Hsel; [|discriminate].
  intros H. now rewrite (select_link_stored id r row d Hsel).
Qed.

(** One request that is not a click on [id] moves neither count. *)
Lemma clicks_step_other (d : database) (req : request) (d' : database) (id : string)
    (n : Z) :
  step d req d' ->
  is_click_on id req = false ->
  cached_clicks id d = Some n ->
  cached_clicks id d' = Some n /\ count_clicks id d' = count_clicks id d.
Proof.
  intros Hstep Hother Hn. destruct Hstep; cbn [is_click_on] in Hother.
  - now split.
  - split; [now apply cached_clicks_stored | reflexivity].
  - split; [exact Hn|]. rewrite count_clicks_logged.
    change (Click.link_id (click_of e args)) with (ClickArgs.linkId args).
    rewrite Hother. lia.
  - split.
    + rewrite cached_clicks_counted.
      change (cached_clicks id (click_logged (click_of e args) d))
        with (cached_clicks id d).
      rewrite Hn. cbn [option_map].
      rewrite String.eqb_sym, Hother. reflexivity.
    + change (count_clicks id (click_counted (ClickArgs.linkId args)
                                 (click_logged (click_of e args) d)))
        with (count_clicks id (click_logged (click_of e args) d)).
      rewrite count_clicks_logged.
      change (Click.link_id (click_of e args)) with (ClickArgs.linkId args).
      rewrite Hother. lia.
  - now split.
  - split; [|reflexivity]. rewrite cached_clicks_conversion_counted. exact Hn.
Qed.

(** A successful click on [id] moves both counts by one. *)
Lemma clicks_step_click (e : env) (args : ClickArgs.t) (d : database) (n : Z) :
  let out := tools_call e (call_track_click args) d in
  let id := ClickArgs.linkId args in
  isError (fst out) = false ->
  cached_clicks id d = Some n ->
  cached_clicks id (snd out) = Some (n + 1)%Z
  /\ count_clicks id (snd out) = (count_clicks id d + 1)%Z.
Proof.
  cbv zeta. intros Hok Hn.
  destruct (track_click_cases e args d)
    as [[Herr _] | [(_ & _ & Hf & _) | (_ & _ & Hd)]].
  - congruence.
  - rewrite Hf in Hok. discriminate.
  - rewrite Hd. split.
    + rewrite cached_clicks_counted.
      change (cached_clicks (ClickArgs.linkId args) (click_logged (click_of e args) d))
        with (cached_clicks (ClickArgs.linkId args) d).
      rewrite Hn, String.eqb_refl. reflexivity.
    + change (count_clicks (ClickArgs.linkId args)
                (click_counted (ClickArgs.linkId args) (click_logged (click_of e args) d)))
        with (count_clicks (ClickArgs.linkId args) (click_logged (click_of e args) d)).
      rewrite count_clicks_logged.
      change (Click.link_id (click_of e args)) with (ClickArgs.linkId args).
      rewrite String.eqb_refl. reflexivity.
Qed.

Lemma clicks_session (id : string) (calls : list (env * request)) :
  forall (d : database) (n : Z),
    cached_clicks id d = Some n ->
    count_clicks id d = n ->
    clicks_succeed id calls d ->
    cached_clicks id (serve calls d) = Some (n + clicks_requested id calls)%Z
    /\ count_clicks id (serve calls d) = (n + clicks_requested id calls)%Z.
Proof.
  unfold clicks_requested.
  induction calls as [|[e req] calls IH]; intros d n Hcached Hcount Hsucc.
  - cbn. rewrite Z.add_0_r. now split.
  - cbn [serve filter snd]. destruct Hsucc as [Hthis Hrest].
    destruct (is_click_on id req) eqn:Hclick.
    + destruct req; try discriminate. cbn [is_click_on] in Hclick.
      apply String.eqb_eq in Hclick. subst id.
      destruct (clicks_step_click e args d n (Hthis eq_refl) Hcached) as [H1 H2].
      rewrite Hcount in H2.
      destruct (IH _ _ H1 H2 Hrest) as [H3 H4].
      cbn [List.length]. rewrite H3, H4. split; [f_equal|]; lia.
    + destruct (clicks_step_other d req _ id n (tools_call_step e req d) Hclick Hcached)
        as [H1 H2].
      rewrite Hcount in H2.
      exact (IH _ _ H1 H2 Hrest).
Qed.

Lemma select_link_stored_new (r : Row.t) (d : database) :
  ~ In (Row.id r) (map Row.id (affiliate_links d)) ->
  select_by_id (Row.id r) (link_stored r d) = Some r.
Proof.
  unfold select_by_id, link_stored. cbn.
  induction (affiliate_links d) as [|x rows IH]; simpl; intros Hnew.
  - now rewrite String.eqb_refl.
  - destruct (String.eqb_spec (Row.id x) (Row.id r)) as [Heq|Hne].
    + exfalso. apply Hnew. now left.
    + apply IH. intros Hin. apply Hnew. now right.
Qed.

(** With foreign keys enforced, link_clicks never holds a row for an id that
    names no link, so a link has no click rows at its creation. *)
Lemma enforced_step (d : database) (req : request) (d' : database) :
  step d req d' ->
  foreign_keys d = true /\ no_orphans d ->
  foreign_keys d' = true /\ no_orphans d'.
Proof.
  unfold no_orphans. intros Hstep [Hfk Hd].
  destruct Hstep;
    unfold link_stored, click_counted, click_logged, conversion_counted,
      conversion_logged, parent_exists in *;
    cbn [affiliate_links link_clicks foreign_keys set_links set_clicks set_conversions];
    try (split; [exact Hfk | exact Hd]).
  - split; [exact Hfk|]. eapply Forall_impl; [|exact Hd].
    intros c Hc. rewrite map_app. apply in_or_app. now left.
  - split; [exact Hfk|]. apply Forall_app. split; [exact Hd|].
    constructor; [|constructor].
    rewrite Hfk in H. cbn in H. now apply mem_In.
  - split; [exact Hfk|].
    rewrite update_where_id_ids by apply bump_clicks_id.
    apply Forall_app. split; [exact Hd|].
    constructor; [|constructor].
    rewrite Hfk in H. cbn in H. now apply mem_In.
  - split; [exact Hfk|].
    now rewrite update_where_id_ids by apply bump_conversions_id.
Qed.

Lemma no_orphans_count (id : string) (d : database) :
  no_orphans d ->
  ~ In id (map Row.id (affiliate_links d)) ->
  count_clicks id d = 0%Z.
Proof.
  unfold no_orphans, count_clicks. intros Hd Hid.
  induction Hd as [|c cs Hc _ IH]; cbn; [reflexivity|].
  destruct (String.eqb_spec (Click.link_id c) id) as [Heq|Hne]; [|exact IH].
  exfalso. apply Hid. now rewrite <- Heq.
Qed.

Lemma created_link_has_no_clicks (calls : list (env * request)) (e0 : env)
    (args : StoreArgs.t) :
  let d0 := serve calls open_database in
  isError (fst (tools_call e0 (call_store_affiliate_link args) d0)) = false ->
  count_clicks (generateId e0) d0 = 0%Z.
Proof.
  cbv zeta. intros Hok.
  destruct (store_cases e0 args (serve calls open_database))
    as [[Herr _] | (_ & Hid & _)]; [congruence|].
  apply no_orphans_count; [|exact Hid].
  apply (serve_invariant (fun d => foreign_keys d = true /\ no_orphans d));
    [exact enforced_step|].
  split; [reflexivity | constructor].
Qed.

(** The case without failed clicks: take a link from its creation, at which
    no click row references its id, through any session in which every
    track_click for that id succeeds.  Afterwards the cached clicks counter of
    the link equals the number of those track_click calls, and so does the
    number of rows of link_clicks that reference the link. *)
Theorem clicks_counter_consistent (e0 : env) (args : StoreArgs.t) (d0 : database)
    (calls : list (env * request)) :
  let created := tools_call e0 (call_store_affiliate_link args) d0 in
  let id := generateId e0 in
  isError (fst created) = false ->
  count_clicks id d0 = 0%Z ->
  clicks_succeed id calls (snd created) ->
  let d := serve calls (snd created) in
  cached_clicks id d = Some (clicks_requested id calls)
  /\ count_clicks id d = clicks_requested id calls.
Proof.
  cbv zeta. intros Hok Hzero Hsucc.
  destruct (store_cases e0 args d0) as [[Herr _] | (_ & Hid & _ & Hd)]; [congruence|].
  rewrite Hd in *.
  assert (Hcached : cached_clicks (generateId e0) (link_stored (row_of e0 args) d0)
                    = Some 0%Z).
  { unfold cached_clicks.
    change (generateId e0) with (Row.id (row_of e0 args)) at 1.
    now rewrite select_link_stored_new. }
  exact (clicks_session (generateId e0) calls _ 0%Z Hcached Hzero Hsucc).
Qed.

Lemma clicks_counter_consistent_witness :
  let created := tools_call (healthy "aff_10" "2024-05-08T09:00:00.000Z")
                            (call_store_affiliate_link desk) shop in
  isError (fst created) = false
  /\ count_clicks "aff_10" shop = 0%Z
  /\ clicks_succeed "aff_10" three_clicks (snd created)
  /\ cached_clicks "aff_10" (serve three_clicks (snd created)) = Some 3%Z
  /\ count_clicks "aff_10" (serve three_clicks (snd created)) = 3%Z.
Proof.
  cbv zeta.
  assert (Hs : clicks_succeed "aff_10" three_clicks
                 (snd (tools_call (healthy "aff_10" "2024-05-08T09:00:00.000Z")
                                  (call_store_affiliate_link desk) shop)))
    by (cbn; repeat split; reflexivity).
  split; [reflexivity|]. split; [reflexivity|]. split; [exact Hs|].
  exact (clicks_counter_consistent (healthy "aff_10" "2024-05-08T09:00:00.000Z")
           desk shop three_clicks eq_refl eq_refl Hs).
Defined.

(** C4, as the specification words it, fails: the desk is created, a first
    click on it loses its UPDATE to a disk error and is answered with an
    error, a second click succeeds.  There is N = 1 successful track_click and
    the cached counter is 1, but link_clicks holds 2 rows for the link. *)
Lemma C4_failed_click_leaves_a_row :
  let created := tools_call (healthy "aff_10" "2024-05-08T09:00:00.000Z")
                            (call_store_affiliate_link desk) shop in
  let d := serve lost_update_clicks (snd created) in
  isError (fst created) = false
  /\ tally (click_succeeded "aff_10") lost_update_clicks (snd created) = 1%Z
  /\ cached_clicks "aff_10" d = Some 1%Z
  /\ count_clicks "aff_10" d = 2%Z.
Proof. repeat split. Qed.

(** One call moves the cached counter by one when it is a successful click on
    the link, and the number of click rows by one more when it is a click on
    the link whose row was written and whose UPDATE failed. *)
Lemma clicks_tally_call (e : env) (req : request) (d : database) (id : string) (n : Z) :
  cached_clicks id d = Some n ->
  cached_clicks id (snd (tools_call e req d))
  = Some (n + (if click_succeeded id e req d then 1 else 0))%Z
  /\ count_clicks id (snd (tools_call e req d))
     = (count_clicks id d
        + (if click_succeeded id e req d then 1 else 0)
        + (if click_uncounted id e req d then 1 else 0))%Z.
Proof.
  intros Hn. unfold click_succeeded, click_uncounted.
  destruct (is_click_on id req) eqn:Hclick; cbn [andb].
  - destruct req; try discriminate. cbn [is_click_on] in Hclick.
    apply String.eqb_eq in Hclick. subst id.
    destruct (track_click_cases e args d)
      as [[Herr Hd] | [(_ & _ & Hf & Hd) | (_ & Hok & Hd)]].
    + rewrite Herr, Hd, Nat.ltb_irrefl. cbn [negb andb]. rewrite Hn.
      split; [f_equal|]; lia.
    + rewrite Hf, Hd. cbn [isError negb andb].
      change (cached_clicks (ClickArgs.linkId args) (click_logged (click_of e args) d))
        with (cached_clicks (ClickArgs.linkId args) d).
      rewrite Hn, count_clicks_logged.
      change (Click.link_id (click_of e args)) with (ClickArgs.linkId args).
      rewrite String.eqb_refl.
      unfold click_logged. cbn [link_clicks set_clicks]. rewrite length_app.
      cbn [List.length].
      replace (List.length (link_clicks d) <? List.length (link_clicks d) + 1)%nat
        with true by (symmetry; apply Nat.ltb_lt; lia).
      split; [f_equal|]; lia.
    + destruct (clicks_step_click e args d n Hok Hn) as [H1 H2].
      rewrite Hok. cbn [negb andb]. rewrite H1, H2. split; [reflexivity | lia].
  - destruct (clicks_step_other d req _ id n (tools_call_step e req d) Hclick Hn)
      as [H1 H2].
    rewrite H1, H2. split; [f_equal|]; lia.
Qed.

Lemma clicks_tally_session (id : string) (calls : list (env * request)) :
  forall (d : database) (n : Z),
    cached_clicks id d = Some n ->
    cached_clicks id (serve calls d)
    = Some (n + tally (click_succeeded id) calls d)%Z
    /\ count_clicks id (serve calls d)
       = (count_clicks id d + tally (click_succeeded id) calls d
          + tally (click_uncounted id) calls d)%Z.
Proof.
  induction calls as [|[e req] calls IH]; intros d n Hn.
  - cbn. rewrite Hn. split; [f_equal|]; lia.
  - cbn [serve tally].
    destruct (clicks_tally_call e req d id n Hn) as [H1 H2].
    destruct (IH _ _ H1) as [H3 H4].
    rewrite H3, H4, H2. split; [f_equal|]; lia.
Qed.

(** C4 (amended): take a link from its creation, at which no click row
    references its id, through any session.  Afterwards its cached clicks
    counter equals N, the number of track_click calls for its id that were
    answered with a success.  The number of rows of link_clicks that
    reference the link is N plus the number of track_click calls for its id
    that were answered with an error after their row had been written; so it
    equals N, and the counter, exactly when there was no such call. *)
Theorem C4_clicks_counter_and_rows (e0 : env) (args : StoreArgs.t) (d0 : database)
    (calls : list (env * request)) :
  let created := tools_call e0 (call_store_affiliate_link args) d0 in
  let id := generateId e0 in
  isError (fst created) = false ->
  count_clicks id d0 = 0%Z ->
  let d := serve calls (snd created) in
  let N := tally (click_succeeded id) calls (snd created) in
  let lost := tally (click_uncounted id) calls (snd created) in
  cached_clicks id d = Some N
  /\ count_clicks id d = (N + lost)%Z
  /\ (count_clicks id d = N <-> lost = 0%Z).
Proof.
  cbv zeta. intros Hok Hzero.
  destruct (store_cases e0 args d0) as [[Herr _] | (_ & Hid & _ & Hd)]; [congruence|].
  rewrite Hd in *.
  assert (Hcached : cached_clicks (generateId e0) (link_stored (row_of e0 args) d0)
                    = Some 0%Z).
  { unfold cached_clicks.
    change (generateId e0) with (Row.id (row_of e0 args)) at 1.
    now rewrite select_link_stored_new. }
  destruct (clicks_tally_session (generateId e0) calls _ 0%Z Hcached) as [H1 H2].
  change (count_clicks (generateId e0) (link_stored (row_of e0 args) d0))
    with (count_clicks (generateId e0) d0) in H2.
  rewrite Hzero in H2. rewrite H1, H2.
  split; [f_equal; lia|]. split; [lia|]. split; lia.
Qed.

Lemma C4_clicks_counter_and_rows_witness :
  let created := tools_call (healthy "aff_10" "2024-05-08T09:00:00.000Z")
                            (call_store_affiliate_link desk) shop in
  isError (fst created) = false
  /\ count_clicks "aff_10" shop = 0%Z
  /\ cached_clicks "aff_10" (serve lost_update_clicks (snd created))
     = Some (tally (click_succeeded "aff_10") lost_update_clicks (snd created)).
Proof.
  cbv zeta. split; [reflexivity|]. split; [reflexivity|].
  exact (proj1 (C4_clicks_counter_and_rows
                  (healthy "aff_10" "2024-05-08T09:00:00.000Z")
                  desk shop lost_update_clicks eq_refl eq_refl)).
Defined.

(** ** C6 and C10: exporting full link records *)

Lemma map_result_to_link (rows : list Row.t) :
  Forall (fun r => exists tags, blob_denotes (Row.tags r) tags) rows ->
  exists links,
    map_result to_link rows = Ok links
    /\ Forall2 exported_as rows (map link_json links).
Proof.
  induction 1 as [|r rows [tags Hr] _ (links & Hmap & Hall)].
  - exists []. split; [reflexivity | constructor].
  - exists (link_of r tags :: links). split.
    + cbn [map_result]. now rewrite (to_link_denotes r tags Hr), Hmap.
    + cbn [map]. constructor; [|exact Hall]. exists tags. now split.
Qed.

Lemma export_json_reply (e : env) (d : database) :
  blobs_ok d ->
  exists objs,
    tools_call e (call_export_links "json") d = (success (JArr objs), d)
    /\ Forall2 exported_as (order_by_desc created_geb (affiliate_links d)) objs.
Proof.
  intros Hok.
  assert (Hsorted : Forall (fun r => exists tags, blob_denotes (Row.tags r) tags)
                           (order_by_desc created_geb (affiliate_links d))).
  { eapply Permutation_Forall; [|exact Hok].
    symmetry. apply order_by_desc_perm. }
  destruct (map_result_to_link _ Hsorted) as (links & Hmap & Hall).
  exists (map link_json links). split; [|exact Hall].
  unfold tools_call, dispatch, export_links, bind, getAllAffiliateLinks.
  now rewrite Hmap.
Qed.



Lemma Forall2_In_l {A B} (R : A -> B -> Prop) (l : list A) (l' : list B) (x : A) :
  Forall2 R l l' -> In x l -> exists y, In y l' /\ R x y.
Proof.
  induction 1 as [|a b l l' Hab _ IH]; intros Hin; [contradiction|].
  destruct Hin as [-> | Hin].
  - exists b. split; [now left | exact Hab].
  - destruct (IH Hin) as (y & Hy & Hxy). exists y. split; [now right | exact Hxy].
Qed.

Lemma Forall2_In_r {A B} (R : A -> B -> Prop) (l : list A) (l' : list B) (y : B) :
  Forall2 R l l' -> In y l' -> exists x, In x l /\ R x y.
Proof.
  induction 1 as [|a b l l' Hab _ IH]; intros Hin; [contradiction|].
  destruct Hin as [-> | Hin].
  - exists a. split; [now left | exact Hab].
  - destruct (IH Hin) as (x & Hx & Hxy). exists x. split; [now right | exact Hxy].
Qed.

Lemma ids_unique_step (d : database) (req : request) (d' : database) :
  step d req d' -> ids_unique d -> ids_unique d'.
Proof.
  unfold ids_unique. intros Hstep Hd.
  destruct Hstep;
    unfold link_stored, click_counted, click_logged, conversion_counted,
      conversion_logged;
    cbn [affiliate_links set_links set_clicks set_conversions]; try exact Hd.
  - rewrite map_app. cbn [map].
    eapply Permutation_NoDup; [apply Permutation_cons_append|].
    now constructor.
  - now rewrite update_where_id_ids by apply bump_clicks_id.
  - now rewrite update_where_id_ids by apply bump_conversions_id.
Qed.

Lemma ids_unique_row (rows : list Row.t) (r r' : Row.t) :
  NoDup (map Row.id rows) -> In r rows -> In r' rows -> Row.id r = Row.id r' -> r = r'.
Proof.
  induction rows as [|x rows IH]; cbn; intros Hnd Hr Hr' Hid; [contradiction|].
  inversion Hnd as [|? ? Hnotin Hnd']; subst.
  destruct Hr as [-> | Hr], Hr' as [-> | Hr'].
  - reflexivity.
  - exfalso. apply Hnotin. rewrite Hid. now apply in_map.
  - exfalso. apply Hnotin. rewrite <- Hid. now apply in_map.
  - now apply IH.
Qed.

Lemma untagged_step (id : string) (d : database) (req : request) (d' : database) :
  step d req d' -> untagged id d -> untagged id d'.
Proof.
  intros Hstep (row & Hsel & Htags). destruct Hstep.
  - now exists row.
  - exists row. split; [now apply select_link_stored | exact Htags].
  - now exists row.
  - unfold click_counted. eexists. split.
    + rewrite select_update by apply bump_clicks_id.
      rewrite select_click_logged, Hsel. reflexivity.
    + now destruct (String.eqb _ _).
  - now exists row.
  - unfold conversion_counted. eexists. split.
    + rewrite select_update by apply bump_conversions_id.
      rewrite select_conversion_logged, Hsel. reflexivity.
    + now destruct (String.eqb _ _).
Qed.

Lemma blob_denotes_null (tags : list string) : blob_denotes None tags -> tags = [].
Proof. intros [[_ ->] | H]; [reflexivity | discriminate]. Qed.

(** C10: a link stored without tags is read back with tags equal to the empty
    array, after any further session: by the record lookup that get_stats
    uses, and in the JSON export, where the link appears and every exported
    object with its id has "tags": []. *)
Theorem C10_omitted_tags_read_as_empty (e0 e : env) (args : StoreArgs.t) (d0 : database)
    (calls : list (env * request)) :
  reachable d0 ->
  StoreArgs.tags args = None ->
  let created := tools_call e0 (call_store_affiliate_link args) d0 in
  isError (fst created) = false ->
  let id := generateId e0 in
  let d := serve calls (snd created) in
  (exists l, getAffiliateLink id d = (Ok (Some l), d)
             /\ Link.id l = id /\ Link.tags l = [])
  /\ (exists objs,
        tools_call e (call_export_links "json") d = (success (JArr objs), d)
        /\ (exists o, In o objs /\ get "id" o = Some (JStr id))
        /\ (forall o, In o objs -> get "id" o = Some (JStr id) ->
                      get "tags" o = Some (JArr []))).
Proof.
  intros Hreach Hnone. cbv zeta. intros Hok.
  destruct (store_cases e0 args d0) as [[Herr _] | (_ & Hid & _ & Hd)]; [congruence|].
  rewrite Hd. set (d := serve calls (link_stored (row_of e0 args) d0)).
  assert (Hstored : step d0 (call_store_affiliate_link args)
                         (link_stored (row_of e0 args) d0))
    by (rewrite <- Hd; apply tools_call_step).
  assert (Huntagged : untagged (generateId e0) d).
  { apply serve_invariant; [apply untagged_step|].
    exists (row_of e0 args). split.
    - change (generateId e0) with (Row.id (row_of e0 args)).
      now apply select_link_stored_new.
    - cbn. now rewrite Hnone. }
  assert (Hblobs : blobs_ok d).
  { apply serve_invariant; [exact blobs_ok_step|].
    eapply blobs_ok_step; [exact Hstored | now apply reachable_blobs_ok]. }
  assert (Hunique : ids_unique d).
  { apply serve_invariant; [exact ids_unique_step|].
    eapply ids_unique_step; [exact Hstored|].
    revert Hreach.
    apply reachable_invariant; [intros fk; constructor | exact ids_unique_step]. }
  destruct Huntagged as (row & Hsel & Htags).
  destruct (select_by_id_Some _ _ _ Hsel) as [Hin Hrowid].
  split.
  - exists (link_of row []). split; [|now split].
    unfold getAffiliateLink. rewrite Hsel.
    rewrite (to_link_denotes row []); [reflexivity|].
    left. now split.
  - destruct (export_json_reply e d Hblobs) as (objs & Hout & Hall).
    exists objs. split; [exact Hout|].
    pose proof (order_by_desc_perm created_geb (affiliate_links d)) as Hperm.
    split.
    + assert (Hin' : In row (order_by_desc created_geb (affiliate_links d)))
        by (eapply Permutation_in; [symmetry; exact Hperm | exact Hin]).
      destruct (Forall2_In_l _ _ _ _ Hall Hin') as (o & Ho & tags & _ & Heq).
      exists o. split; [exact Ho|]. rewrite Heq. cbn. now rewrite Hrowid.
    + intros o Ho Hoid.
      destruct (Forall2_In_r _ _ _ _ Hall Ho) as (row' & Hrow' & tags & Hden & Heq).
      rewrite Heq in Hoid |- *. cbn in Hoid. injection Hoid as Hoid.
      assert (Hrow'in : In row' (affiliate_links d))
        by (eapply Permutation_in; [exact Hperm | exact Hrow']).
      assert (row' = row)
        by (eapply ids_unique_row; [exact Hunique | | | congruence]; assumption).
      subst row'. rewrite Htags in Hden.
      apply blob_denotes_null in Hden. subst tags. reflexivity.
Qed.

Lemma C10_omitted_tags_read_as_empty_witness :
  reachable open_database
  /\ StoreArgs.tags chair = None
  /\ exists l,
      getAffiliateLink "aff_1" (serve two_sales shop) = (Ok (Some l), serve two_sales shop)
      /\ Link.id l = "aff_1" /\ Link.tags l = [].
Proof.
  assert (Hr : reachable open_database) by (exists true, []; reflexivity).
  split; [exact Hr|]. split; [reflexivity|].
  exact (proj1 (C10_omitted_tags_read_as_empty
                  (healthy "aff_1" "2024-05-01T10:00:00.000Z")
                  (healthy "aff_20" "2024-05-09T09:00:00.000Z")
                  chair open_database two_sales Hr eq_refl eq_refl)).
Defined.

(** ** C7: get_affiliate_links *)

(** C7, as the specification words it, fails on two inputs: a supplied limit
    of 0 is replaced by 50, and a supplied empty category is not applied; in
    both cases the chair is returned where the wording gives no link. *)
Lemma C7_zero_limit_and_empty_category :
  let e := healthy "aff_30" "2024-05-10T09:00:00.000Z" in
  let zero := ListArgs.mk None None missing missing (number 0) in
  let blank := ListArgs.mk (Some EmptyString) None missing missing missing in
  (field "count" (fst (tools_call e (call_get_affiliate_links (Some zero)) shop))
   = Some (JInt 1)
   /\ spec_list zero shop = [])
  /\ (field "count" (fst (tools_call e (call_get_affiliate_links (Some blank)) shop))
      = Some (JInt 1)
      /\ spec_list blank shop = []).
Proof. repeat split. Qed.

Lemma sorted_by_commission (l : list Row.t) :
  StronglySorted (fun x y => commission_geb x y = true) l ->
  StronglySorted by_commission_desc l.
Proof.
  induction 1 as [|x l _ IH Hall]; constructor; [exact IH|].
  eapply Forall_impl; [|exact Hall].
  intros y Hy. now apply Qle_bool_iff.
Qed.

Lemma sorted_prefix {A} (R : A -> A -> Prop) (l1 l2 : list A) :
  StronglySorted R (l1 ++ l2) -> StronglySorted R l1.
Proof.
  induction l1 as [|x l1 IH]; cbn; intros H; [constructor|].
  apply StronglySorted_inv in H. destruct H as [Hs Hall].
  constructor; [now apply IH|].
  apply Forall_app in Hall. tauto.
Qed.

Lemma build_query_passes (args : ListArgs.t) (r : Row.t) :
  forallb (holds r) (build_query args) = true <-> passes args r.
Proof.
  unfold build_query, passes. rewrite !forallb_app, !andb_true_iff.
  assert (Hcat : forall (arg : option string) (column : string) (mk : string -> condition),
             (forall v, holds r (mk v) = String.eqb column v) ->
             forallb (holds r) (match or_null arg with
                                | Some c => [mk c]
                                | None => []
                                end) = true
             <-> (forall c, arg = Some c -> c <> EmptyString -> column = c)).
  { intros arg column mk Hmk. destruct arg as [[|a s]|]; cbn [or_null forallb].
    - split; [|reflexivity]. intros _ c Hc Hne. injection Hc as <-. now elim Hne.
    - rewrite Hmk, andb_true_r, String.eqb_eq. split.
      + intros H c Hc _. now injection Hc as <-.
      + intros H. apply H; [reflexivity | discriminate].
    - split; [|reflexivity]. intros _ c Hc. discriminate. }
  rewrite (Hcat (ListArgs.category args) (Row.category r) category_eq)
    by reflexivity.
  rewrite (Hcat (ListArgs.program args) (Row.program r) program_eq)
    by reflexivity.
  assert (Hmin : forallb (holds r) (match ListArgs.minCommission args with
                                    | missing => []
                                    | null => [commission_ge None]
                                    | number m => [commission_ge (Some m)]
                                    end) = true
                 <-> at_least (ListArgs.minCommission args) (Row.commission_rate r)).
  { destruct (ListArgs.minCommission args); cbn [forallb holds at_least].
    - tauto.
    - split; [discriminate | contradiction].
    - now rewrite andb_true_r, Qle_bool_iff. }
  assert (Hmax : forallb (holds r) (match ListArgs.maxCommission args with
                                    | missing => []
                                    | null => [commission_le None]
                                    | number m => [commission_le (Some m)]
                                    end) = true
                 <-> at_most (ListArgs.maxCommission args) (Row.commission_rate r)).
  { destruct (ListArgs.maxCommission args); cbn [forallb holds at_most].
    - tauto.
    - split; [discriminate | contradiction].
    - now rewrite andb_true_r, Qle_bool_iff. }
  rewrite Hmin, Hmax. reflexivity.
Qed.

Lemma filter_none {A} (keep : A -> bool) (l : list A) :
  (forall x, In x l -> keep x = true -> False) -> filter keep l = [].
Proof.
  induction l as [|x l IH]; intros Hnone; [reflexivity|]. cbn [filter].
  destruct (keep x) eqn:Hx.
  - exfalso. apply (Hnone x); [now left | exact Hx].
  - apply IH. intros y Hy. apply Hnone. now right.
Qed.

(** LIMIT accepts a bound number exactly when it is an integer of the range. *)
Lemma as_limit_Some (q : Q) (n : Z) :
  as_limit q = Some n -> (q == inject_Z n)%Q /\ (- 2 ^ 63 < n < 2 ^ 63 - 1)%Z.
Proof.
  unfold as_limit. destruct q as [a b]. cbn [Qnum Qden].
  destruct (Z.eqb_spec (a mod Z.pos b) 0) as [Hmod|]; [|discriminate].
  destruct (Z.ltb_spec (- 2 ^ 63) (a / Z.pos b)); [|discriminate].
  destruct (Z.ltb_spec (a / Z.pos b) (2 ^ 63 - 1)); [|discriminate].
  cbn [andb]. intros Hsome. injection Hsome as <-. split; [|now split].
  unfold Qeq, inject_Z. cbn [Qnum Qden].
  pose proof (Z.div_mod a (Z.pos b)) as Hdiv. rewrite Hmod in Hdiv. lia.
Qed.

Lemma as_limit_None (q : Q) :
  as_limit q = None ->
  forall n, (- 2 ^ 63 < n < 2 ^ 63 - 1)%Z -> ~ (q == inject_Z n)%Q.
Proof.
  unfold as_limit. destruct q as [a b]. cbn [Qnum Qden]. intros Hnone n Hn Heq.
  unfold Qeq, inject_Z in Heq. cbn [Qnum Qden] in Heq.
  assert (Ha : a = (n * Z.pos b)%Z) by lia.
  rewrite Ha, Z.mod_mul, Z.div_mul in Hnone by lia.
  cbn [Z.eqb andb] in Hnone.
  destruct (Z.ltb_spec (- 2 ^ 63) n); [|lia].
  destruct (Z.ltb_spec n (2 ^ 63 - 1)); [|lia].
  discriminate.
Qed.

(** The LIMIT that the handlers compute from the limit argument. *)
Lemma cut_by_limit {A} (dflt : nat) (full : list A) (limit : number_arg) :
  as_limit (inject_Z (Z.of_nat dflt)) = Some (Z.of_nat dflt) ->
  cut_by dflt full limit
    (option_map (fun n => limit_rows n full)
                (as_limit (or_default limit (inject_Z (Z.of_nat dflt))))).
Proof.
  intros Hdflt.
  assert (Hcut : limit_rows (Z.of_nat dflt) full = firstn dflt full).
  { unfold limit_rows. destruct (Z.ltb_spec (Z.of_nat dflt) 0); [lia|].
    now rewrite Nat2Z.id. }
  destruct limit as [| |q]; cbn [or_default].
  - rewrite Hdflt. cbn [option_map]. rewrite Hcut. constructor.
  - rewrite Hdflt. cbn [option_map]. rewrite Hcut. constructor.
  - destruct (Qeq_bool q 0) eqn:Hzero.
    + rewrite Hdflt. cbn [option_map]. rewrite Hcut. constructor.
      now apply Qeq_bool_iff.
    + destruct (as_limit q) as [n|] eqn:Hq; cbn [option_map].
      * destruct (as_limit_Some q n Hq) as [Heq Hrange].
        assert (Hn : n <> 0%Z).
        { intros ->. apply Qeq_bool_neq in Hzero. now apply Hzero. }
        unfold limit_rows. destruct (Z.ltb_spec n 0).
        -- apply (cut_negative dflt full q n Heq). lia.
        -- apply (cut_positive dflt full q n Heq). lia.
      * apply cut_refused. now apply as_limit_None.
Qed.

(** C7 (amended): get_affiliate_links never writes.  Called with a filter, it
    returns the links that satisfy every filter in force (category and program
    by equality, an empty string counting as not supplied; the commission rate
    at least minCommission and at most maxCommission, bounds included, a null
    bound letting no link pass), ordered by descending commission rate and
    then cut by LIMIT: at 50 when the limit is absent, null or 0, at the limit
    when it is a positive integer, not at all when it is a negative integer.
    When no link passes, the result is the empty sequence.  The call is
    answered with an error in two cases: "datatype mismatch" when the limit is
    a fraction or lies beyond the 64-bit integers, and a TypeError when the
    request carries no arguments object. *)
Theorem C7_list_filter (e : env) (d : database) :
  tools_call e (call_get_affiliate_links None) d = (error_reply (TypeError "category"), d)
  /\ forall args : ListArgs.t,
      exists (keep : Row.t -> bool) (full : list Row.t) (outcome : option (list Row.t)),
        (forall r, keep r = true <-> passes args r)
        /\ Permutation full (filter keep (affiliate_links d))
        /\ StronglySorted by_commission_desc full
        /\ cut_by 50 full (ListArgs.limit args) outcome
        /\ tools_call e (call_get_affiliate_links (Some args)) d
           = (match outcome with
              | Some rows => listing rows
              | None => error_reply Datatype_mismatch
              end, d)
        /\ ((forall r, In r (affiliate_links d) -> ~ passes args r) ->
            outcome = Some [] \/ outcome = None).
Proof.
  split; [reflexivity|]. intros args.
  set (keep := fun r => forallb (holds r) (build_query args)).
  set (full := order_by_desc commission_geb (filter keep (affiliate_links d))).
  assert (Hperm : Permutation full (filter keep (affiliate_links d)))
    by apply order_by_desc_perm.
  exists keep, full,
    (option_map (fun n => limit_rows n full)
                (as_limit (or_default (ListArgs.limit args) 50))).
  split; [intros r; apply build_query_passes|].
  split; [exact Hperm|].
  split.
  { apply sorted_by_commission, order_by_desc_sorted.
    - exact commission_geb_total.
    - exact commission_geb_trans. }
  assert (Hcut : cut_by 50 full (ListArgs.limit args)
                   (option_map (fun n => limit_rows n full)
                               (as_limit (or_default (ListArgs.limit args) 50))))
    by (apply (cut_by_limit 50 full (ListArgs.limit args)); reflexivity).
  split; [exact Hcut|]. split.
  - unfold tools_call, dispatch, get_affiliate_links, select_links.
    fold keep full.
    destruct (as_limit (or_default (ListArgs.limit args) 50)) as [lim|];
      cbn [option_map]; [|reflexivity].
    unfold listing. now rewrite !length_map.
  - intros Hnone.
    assert (Hfull : full = []).
    { assert (Hempty : filter keep (affiliate_links d) = []).
      { apply filter_none. intros r Hin Hr.
        apply (Hnone r Hin). now apply build_query_passes. }
      rewrite Hempty in Hperm. symmetry in Hperm. now apply Permutation_nil in Hperm. }
    revert Hcut. generalize (option_map (fun n => limit_rows n full)
                               (as_limit (or_default (ListArgs.limit args) 50))).
    rewrite Hfull. intros outcome Hcut.
    destruct Hcut; rewrite ?firstn_nil; auto.
Qed.

(** * Further properties of the server *)

(** ** The reading tools *)

(** X2: get_stats never throws on a reachable store and never writes; it
    answers with the payload "Link not found" exactly when the id names no
    row of affiliate_links, and that answer is not flagged as an error. *)
Theorem get_stats_not_found (e : env) (d : database) (linkId : string) :
  reachable d ->
  let out := tools_call e (call_get_stats linkId) d in
  isError (fst out) = false
  /\ snd out = d
  /\ (fst out = success (error_payload "Link not found")
      <-> ~ In linkId (map Row.id (affiliate_links d))).
Proof.
  intros Hreach. cbv zeta. rewrite <- select_by_id_None.
  destruct (select_by_id linkId d) as [row|] eqn:Hsel.
  - rewrite (get_stats_reply e d linkId row (reachable_blobs_ok d Hreach) Hsel).
    repeat split; intros H; discriminate.
  - unfold tools_call, dispatch, get_stats, bind, getAffiliateLink. rewrite Hsel.
    repeat split.
Qed.

Lemma get_stats_not_found_witness :
  reachable shop
  /\ isError (fst (tools_call (healthy "aff_50" "2024-06-01T09:00:00.000Z")
                              (call_get_stats "aff_404") shop)) = false.
Proof.
  assert (Hr : reachable shop) by (exists true, shop_calls; reflexivity).
  split; [exact Hr|].
  exact (proj1 (get_stats_not_found (healthy "aff_50" "2024-06-01T09:00:00.000Z")
                  shop "aff_404" Hr)).
Defined.

(** ** Invariants of the rows *)

Lemma rows_invariant (P : Row.t -> Prop) :
  (forall e args, P (row_of e args)) ->
  (forall r, P r -> P (bump_clicks r)) ->
  (forall amount r, P r -> P (bump_conversions amount r)) ->
  forall d, reachable d -> Forall P (affiliate_links d).
Proof.
  intros Hnew Hclick Hconv.
  apply (reachable_invariant (fun d => Forall P (affiliate_links d)));
    [intros fk; constructor|].
  intros d req d' Hstep Hd.
  destruct Hstep;
    unfold link_stored, click_counted, click_logged, conversion_counted,
      conversion_logged;
    cbn [affiliate_links set_links set_clicks set_conversions]; try exact Hd.
  - apply Forall_app. split; [exact Hd|]. constructor; [apply Hnew | constructor].
  - apply Forall_update_where_id; [exact Hclick | exact Hd].
  - apply Forall_update_where_id; [apply Hconv | exact Hd].
Qed.

(** X3: the notes argument of store_affiliate_link is never written: in every
    reachable store the notes column of every link is NULL (the INSERT has no
    notes column and no statement updates it). *)
Theorem notes_never_stored (d : database) :
  reachable d -> Forall (fun r => Row.notes r = None) (affiliate_links d).
Proof. apply rows_invariant; intros; auto. Qed.

Lemma notes_never_stored_witness :
  reachable shop_with_desk
  /\ Forall (fun r => Row.notes r = None) (affiliate_links shop_with_desk).
Proof.
  assert (Hr : reachable shop_with_desk)
    by (exists true, shop_with_desk_calls; reflexivity).
  split; [exact Hr | exact (notes_never_stored shop_with_desk Hr)].
Defined.

(** X4: updated_at is never refreshed: in every reachable store every link
    has updated_at equal to created_at, whatever clicks and conversions were
    recorded on it, and its counters are not negative. *)
Theorem updated_at_never_refreshed (d : database) :
  reachable d ->
  Forall (fun r => Row.updated_at r = Row.created_at r
                   /\ (0 <= Row.clicks r)%Z /\ (0 <= Row.conversions r)%Z)
         (affiliate_links d).
Proof.
  apply rows_invariant.
  - intros e args. cbn. repeat split; lia.
  - intros r (H1 & H2 & H3). cbn. repeat split; [exact H1 | lia | exact H3].
  - intros amount r (H1 & H2 & H3). cbn. repeat split; [exact H1 | exact H2 | lia].
Qed.

Lemma updated_at_never_refreshed_witness :
  reachable (serve two_sales shop)
  /\ Forall (fun r => Row.updated_at r = Row.created_at r
                      /\ (0 <= Row.clicks r)%Z /\ (0 <= Row.conversions r)%Z)
            (affiliate_links (serve two_sales shop)).
Proof.
  assert (Hr : reachable (serve two_sales shop))
    by (exists true, (shop_calls ++ two_sales); reflexivity).
  split; [exact Hr | exact (updated_at_never_refreshed _ Hr)].
Defined.

Lemma static_step (d : database) (req : request) (d' : database) (id : string)
    (row : Row.t) :
  step d req d' ->
  select_by_id id d = Some row ->
  exists row',
    select_by_id id d' = Some row'
    /\ static row' = static row
    /\ (Row.clicks row <= Row.clicks row')%Z
    /\ (Row.conversions row <= Row.conversions row')%Z.
Proof.
  intros Hstep Hsel. destruct Hstep.
  - exists row. repeat split; [exact Hsel | lia | lia].
  - exists row. repeat split; [now apply select_link_stored | lia | lia].
  - exists row. repeat split; [exact Hsel | lia | lia].
  - unfold click_counted. rewrite select_update by apply bump_clicks_id.
    rewrite select_click_logged, Hsel. cbn [option_map].
    eexists. split; [reflexivity|].
    destruct (String.eqb _ _); cbn; repeat split; lia.
  - exists row. repeat split; [exact Hsel | lia | lia].
  - unfold conversion_counted. rewrite select_update by apply bump_conversions_id.
    rewrite select_conversion_logged, Hsel. cbn [option_map].
    eexists. split; [reflexivity|].
    destruct (String.eqb _ _); cbn; repeat split; lia.
Qed.

(** X5: a link is never deleted and never edited: over every session the
    link is still found under its id, every column but the three counters
    has the value it had, and clicks and conversions have not decreased. *)
Theorem links_only_gain_counts (calls : list (env * request)) :
  forall (d : database) (id : string) (row : Row.t),
    select_by_id id d = Some row ->
    exists row',
      select_by_id id (serve calls d) = Some row'
      /\ static row' = static row
      /\ (Row.clicks row <= Row.clicks row')%Z
      /\ (Row.conversions row <= Row.conversions row')%Z.
Proof.
  induction calls as [|[e req] calls IH]; intros d id row Hsel.
  - exists row. repeat split; [exact Hsel | lia | lia].
  - cbn [serve].
    destruct (static_step d req _ id row (tools_call_step e req d) Hsel)
      as (row1 & Hsel1 & Hst1 & Hc1 & Hv1).
    destruct (IH _ id row1 Hsel1) as (row2 & Hsel2 & Hst2 & Hc2 & Hv2).
    exists row2. repeat split; [exact Hsel2 | congruence | lia | lia].
Qed.

Lemma links_only_gain_counts_witness :
  exists row',
    select_by_id "aff_1" (serve three_clicks shop) = Some row'
    /\ Row.product row' = "Ergonomic chair".
Proof.
  destruct (links_only_gain_counts three_clicks shop "aff_1"
              (Row.mk "aff_1" "Amazon" "Ergonomic chair" "https://example.com/chair"
                      (9 # 2) "office-furniture" None None "2024-05-01T10:00:00.000Z"
                      "2024-05-01T10:00:00.000Z" 0 0 0%Q None) eq_refl)
    as (row' & Hsel & Hst & _).
  exists row'. split; [exact Hsel|].
  unfold static in Hst. now injection Hst.
Defined.

(** X6: the tables only grow at their end: after any session the rows of
    link_clicks and of link_conversions that were there are still there,
    unchanged and in place, followed by the new ones, and the ids of
    affiliate_links are the old ids followed by the new ones. *)
Theorem tables_append_only (calls : list (env * request)) (d : database) :
  exists (new_clicks : list Click.t) (new_conversions : list Conversion.t)
         (new_ids : list string),
    link_clicks (serve calls d) = link_clicks d ++ new_clicks
    /\ link_conversions (serve calls d) = link_conversions d ++ new_conversions
    /\ map Row.id (affiliate_links (serve calls d))
       = map Row.id (affiliate_links d) ++ new_ids.
Proof.
  revert d. induction calls as [|[e req] calls IH]; intros d.
  - exists [], [], []. now rewrite !app_nil_r.
  - cbn [serve]. destruct (IH (snd (tools_call e req d))) as (c & v & i & Hc & Hv & Hi).
    rewrite Hc, Hv, Hi.
    destruct (tools_call_step e req d);
      unfold link_stored, click_counted, click_logged, conversion_counted,
        conversion_logged;
      cbn [affiliate_links link_clicks link_conversions set_links set_clicks
           set_conversions];
      rewrite ?update_where_id_ids by (intros; reflexivity);
      rewrite ?map_app, <- ?app_assoc;
      do 3 eexists; repeat split; reflexivity.
Qed.

(** ** Keys and references *)

Lemma serve_invariant_call (P : database -> Prop) :
  (forall e req d, P d -> P (snd (tools_call e req d))) ->
  forall calls d, P d -> P (serve calls d).
Proof.
  intros Hcall calls. induction calls as [|[e req] calls IH]; intros d Hd; cbn.
  - exact Hd.
  - apply IH, Hcall, Hd.
Qed.

Lemma NoDup_snoc {A} (l : list A) (x : A) :
  NoDup l -> ~ In x l -> NoDup (l ++ [x]).
Proof.
  intros Hl Hx. eapply Permutation_NoDup; [apply Permutation_cons_append|].
  now constructor.
Qed.

(** What a tracking call leaves behind, with the freshness of the event id. *)
Lemma track_click_fresh (e : env) (args : ClickArgs.t) (d : database) :
  let out := tools_call e (call_track_click args) d in
  snd out = d
  \/ (~ In (generateId e) (map Click.id (link_clicks d))
      /\ parent_exists d (ClickArgs.linkId args) = true
      /\ ((io_fail e 1 = true /\ snd out = click_logged (click_of e args) d)
          \/ (isError (fst out) = false
              /\ snd out = click_counted (ClickArgs.linkId args)
                             (click_logged (click_of e args) d)))).
Proof.
  cbv zeta. unfold tools_call, dispatch, track_click, bind, insert_click, update_clicks.
  fold (click_of e args).
  destruct (io_fail e 0); [now left|].
  change (Click.id (click_of e args)) with (generateId e).
  destruct (mem (generateId e) _) eqn:Hid; [now left|].
  change (Click.link_id (click_of e args)) with (ClickArgs.linkId args).
  destruct (parent_exists d (ClickArgs.linkId args)) eqn:Hp; cbn [negb]; [|now left].
  right. apply mem_false in Hid. repeat split; [exact Hid|].
  destruct (io_fail e 1); [left | right]; repeat split.
Qed.

Lemma track_conversion_fresh (e : env) (args : ConversionArgs.t) (d : database) :
  let out := tools_call e (call_track_conversion args) d in
  snd out = d
  \/ (~ In (generateId e) (map Conversion.id (link_conversions d))
      /\ parent_exists d (ConversionArgs.linkId args) = true
      /\ ((io_fail e 1 = true /\ snd out = conversion_logged (conversion_of e args) d)
          \/ (isError (fst out) = false
              /\ snd out = conversion_counted (ConversionArgs.amount args)
                             (ConversionArgs.linkId args)
                             (conversion_logged (conversion_of e args) d)))).
Proof.
  cbv zeta.
  unfold tools_call, dispatch, track_conversion, bind, insert_conversion,
    update_conversions.
  fold (conversion_of e args).
  destruct (io_fail e 0); [now left|].
  change (Conversion.id (conversion_of e args)) with (generateId e).
  destruct (mem (generateId e) _) eqn:Hid; [now left|].
  change (Conversion.link_id (conversion_of e args)) with (ConversionArgs.linkId args).
  destruct (parent_exists d (ConversionArgs.linkId args)) eqn:Hp; cbn [negb];
    [|now left].
  right. apply mem_false in Hid. repeat split; [exact Hid|].
  destruct (io_fail e 1); [left | right]; repeat split.
Qed.

Lemma update_where_id_links (f : Row.t -> Row.t) (id : string) (rows : list Row.t) :
  (forall r, Row.link (f r) = Row.link r) ->
  map Row.link (update_where_id f id rows) = map Row.link rows.
Proof.
  intros Hf. unfold update_where_id. induction rows as [|r rows IH]; simpl.
  - reflexivity.
  - rewrite IH. f_equal. destruct (String.eqb _ _); [apply Hf | reflexivity].
Qed.

Lemma keys_unique_call (e : env) (req : request) (d : database) :
  keys_unique d -> keys_unique (snd (tools_call e req d)).
Proof.
  intros (Hid & Hlink & Hclick & Hconv).
  pose proof (reads_keep e req d) as Hread.
  destruct req; try (rewrite Hread; now repeat split).
  - destruct (store_cases e args d) as [[_ ->] | (_ & Hnew & Hurl & ->)];
      [now repeat split|].
    unfold keys_unique, link_stored.
    cbn [affiliate_links link_clicks link_conversions set_links].
    rewrite !map_app. cbn [map].
    repeat split; try assumption; now apply NoDup_snoc.
  - destruct (track_click_fresh e args d)
      as [-> | (Hnew & _ & [[_ ->] | [_ ->]])]; [now repeat split| |];
      unfold keys_unique, click_counted, click_logged;
      cbn [affiliate_links link_clicks link_conversions set_links set_clicks];
      rewrite ?update_where_id_ids, ?update_where_id_links by (intros; reflexivity);
      rewrite map_app; cbn [map];
      repeat split; try assumption; now apply NoDup_snoc.
  - destruct (track_conversion_fresh e args d)
      as [-> | (Hnew & _ & [[_ ->] | [_ ->]])]; [now repeat split| |];
      unfold keys_unique, conversion_counted, conversion_logged;
      cbn [affiliate_links link_clicks link_conversions set_links set_conversions];
      rewrite ?update_where_id_ids, ?update_where_id_links by (intros; reflexivity);
      rewrite map_app; cbn [map];
      repeat split; try assumption; now apply NoDup_snoc.
Qed.

Lemma taken_key_refused (d : database) :
  (forall e args,
      In (generateId e) (map Row.id (affiliate_links d))
      \/ In (StoreArgs.link args) (map Row.link (affiliate_links d)) ->
      isError (fst (tools_call e (call_store_affiliate_link args) d)) = true
      /\ snd (tools_call e (call_store_affiliate_link args) d) = d)
  /\ (forall e args,
        In (generateId e) (map Click.id (link_clicks d)) ->
        isError (fst (tools_call e (call_track_click args) d)) = true
        /\ snd (tools_call e (call_track_click args) d) = d)
  /\ (forall e args,
        In (generateId e) (map Conversion.id (link_conversions d)) ->
        isError (fst (tools_call e (call_track_conversion args) d)) = true
        /\ snd (tools_call e (call_track_conversion args) d) = d).
Proof.
  split; [|split]; intros e args Htaken.
  - unfold tools_call, dispatch, store_affiliate_link, bind, insert_link.
    destruct (io_fail e 0); [now split|].
    destruct (mem (StoreArgs.link args) _) eqn:Hlink; [now split|].
    destruct (mem (generateId e) _) eqn:Hid; [now split|].
    apply mem_false in Hlink, Hid. tauto.
  - apply mem_In in Htaken.
    unfold tools_call, dispatch, track_click, bind, insert_click.
    destruct (io_fail e 0); [now split|].
    cbn [Click.id]. rewrite Htaken. now split.
  - apply mem_In in Htaken.
    unfold tools_call, dispatch, track_conversion, bind, insert_conversion.
    destruct (io_fail e 0); [now split|].
    cbn [Conversion.id]. rewrite Htaken. now split.
Qed.

(** X7: the keys of the schema hold in every reachable store: no two links
    share an id or a link URL, no two click rows share an id, no two
    conversion rows share an id.  They hold because a call that would break
    one is refused: store_affiliate_link with a generated id or a link URL
    that is taken, and track_click or track_conversion with a generated id
    that is taken in its table, are answered with an error and write
    nothing. *)
Theorem keys_stay_unique (d : database) :
  reachable d ->
  keys_unique d
  /\ (forall e args,
        In (generateId e) (map Row.id (affiliate_links d))
        \/ In (StoreArgs.link args) (map Row.link (affiliate_links d)) ->
        isError (fst (tools_call e (call_store_affiliate_link args) d)) = true
        /\ snd (tools_call e (call_store_affiliate_link args) d) = d)
  /\ (forall e args,
        In (generateId e) (map Click.id (link_clicks d)) ->
        isError (fst (tools_call e (call_track_click args) d)) = true
        /\ snd (tools_call e (call_track_click args) d) = d)
  /\ (forall e args,
        In (generateId e) (map Conversion.id (link_conversions d)) ->
        isError (fst (tools_call e (call_track_conversion args) d)) = true
        /\ snd (tools_call e (call_track_conversion args) d) = d).
Proof.
  intros Hreach. split; [|apply taken_key_refused].
  destruct Hreach as (fk & calls & ->).
  apply serve_invariant_call; [exact keys_unique_call|].
  repeat split; constructor.
Qed.

Lemma keys_stay_unique_witness :
  reachable shop_with_desk
  /\ keys_unique shop_with_desk
  /\ snd (tools_call (healthy "aff_10" "2024-06-03T09:00:00.000Z")
                     (call_store_affiliate_link
                        (StoreArgs.mk "Impact" "Lamp" "https://example.com/lamp" (3 # 1)
                                      "office-furniture" None None None))
                     shop_with_desk)
     = shop_with_desk.
Proof.
  assert (Hr : reachable shop_with_desk)
    by (exists true, shop_with_desk_calls; reflexivity).
  split; [exact Hr|].
  split; [exact (proj1 (keys_stay_unique shop_with_desk Hr))|].
  refine (proj2 (proj1 (proj2 (keys_stay_unique shop_with_desk Hr)) _ _ _)).
  left. cbn. tauto.
Defined.

Lemma references_step (d : database) (req : request) (d' : database) :
  step d req d' ->
  foreign_keys d = true /\ no_orphans d /\ no_orphan_conversions d ->
  foreign_keys d' = true /\ no_orphans d' /\ no_orphan_conversions d'.
Proof.
  intros Hstep (Hfk & Hc & Hv).
  destruct (enforced_step d req d' Hstep (conj Hfk Hc)) as [Hfk' Hc'].
  split; [exact Hfk'|]. split; [exact Hc'|].
  unfold no_orphan_conversions in *.
  destruct Hstep;
    unfold link_stored, click_counted, click_logged, conversion_counted,
      conversion_logged, parent_exists in *;
    cbn [affiliate_links link_clicks link_conversions foreign_keys set_links
         set_clicks set_conversions];
    rewrite ?update_where_id_ids by (intros; reflexivity);
    try exact Hv.
  - eapply Forall_impl; [|exact Hv].
    intros c Hin. rewrite map_app. apply in_or_app. now left.
  - apply Forall_app. split; [exact Hv|]. constructor; [|constructor].
    rewrite Hfk in H. cbn in H. now apply mem_In.
  - apply Forall_app. split; [exact Hv|]. constructor; [|constructor].
    rewrite Hfk in H. cbn in H. now apply mem_In.
Qed.

(** X8: on the store as the server opens it (foreign keys enforced), after
    any session, failed statements included, every row of link_clicks and
    every row of link_conversions references the id of a stored link, and
    enforcement is still on. *)
Theorem references_stay_valid (calls : list (env * request)) :
  let d := serve calls open_database in
  foreign_keys d = true
  /\ Forall (fun c => In (Click.link_id c) (map Row.id (affiliate_links d)))
            (link_clicks d)
  /\ Forall (fun c => In (Conversion.link_id c) (map Row.id (affiliate_links d)))
            (link_conversions d).
Proof.
  cbv zeta.
  apply (serve_invariant
           (fun d => foreign_keys d = true /\ no_orphans d /\ no_orphan_conversions d));
    [exact references_step|].
  repeat split; constructor.
Qed.

(** ** The cached counters when no statement fails *)

Lemma count_conversions_logged (id : string) (c : Conversion.t) (d : database) :
  count_conversions id (conversion_logged c d)
  = (count_conversions id d
     + (if String.eqb (Conversion.link_id c) id then 1 else 0))%Z.
Proof.
  unfold count_conversions, conversion_logged. cbn.
  rewrite filter_app, length_app. cbn.
  destruct (String.eqb (Conversion.link_id c) id); cbn; lia.
Qed.

Lemma no_orphan_conversions_count (id : string) (d : database) :
  no_orphan_conversions d ->
  ~ In id (map Row.id (affiliate_links d)) ->
  count_conversions id d = 0%Z.
Proof.
  unfold no_orphan_conversions, count_conversions. intros Hd Hid.
  induction Hd as [|c cs Hc _ IH]; cbn; [reflexivity|].
  destruct (String.eqb_spec (Conversion.link_id c) id) as [Heq|Hne]; [|exact IH].
  exfalso. apply Hid. now rewrite <- Heq.
Qed.

Lemma counts_agree_click (e : env) (args : ClickArgs.t) (d : database) :
  Forall (counts_agree d) (affiliate_links d) ->
  let d' := click_counted (ClickArgs.linkId args) (click_logged (click_of e args) d) in
  Forall (counts_agree d') (affiliate_links d').
Proof.
  intros Hd. cbv zeta. unfold click_counted at 2.
  cbn [affiliate_links set_links click_logged set_clicks].
  unfold update_where_id. apply Forall_map.
  eapply Forall_impl; [|exact Hd].
  intros r (Hc & Hv). unfold counts_agree.
  change (count_conversions ?i (click_counted _ (click_logged _ d)))
    with (count_conversions i d).
  change (count_clicks ?i (click_counted _ (click_logged ?c d)))
    with (count_clicks i (click_logged c d)).
  destruct (String.eqb_spec (Row.id r) (ClickArgs.linkId args)) as [Heq|Hne].
  - rewrite bump_clicks_id, count_clicks_logged.
    change (Click.link_id (click_of e args)) with (ClickArgs.linkId args).
    rewrite Heq, String.eqb_refl. cbn [bump_clicks Row.clicks Row.conversions].
    rewrite Heq in Hc, Hv. split; [lia | exact Hv].
  - rewrite count_clicks_logged.
    change (Click.link_id (click_of e args)) with (ClickArgs.linkId args).
    rewrite String.eqb_sym. apply String.eqb_neq in Hne. rewrite Hne.
    split; [lia | exact Hv].
Qed.

Lemma counts_agree_conversion (e : env) (args : ConversionArgs.t) (d : database) :
  Forall (counts_agree d) (affiliate_links d) ->
  let d' := conversion_counted (ConversionArgs.amount args) (ConversionArgs.linkId args)
              (conversion_logged (conversion_of e args) d) in
  Forall (counts_agree d') (affiliate_links d').
Proof.
  intros Hd. cbv zeta. unfold conversion_counted at 2.
  cbn [affiliate_links set_links conversion_logged set_conversions].
  unfold update_where_id. apply Forall_map.
  eapply Forall_impl; [|exact Hd].
  intros r (Hc & Hv). unfold counts_agree.
  change (count_clicks ?i (conversion_counted _ _ (conversion_logged _ d)))
    with (count_clicks i d).
  change (count_conversions ?i (conversion_counted _ _ (conversion_logged ?c d)))
    with (count_conversions i (conversion_logged c d)).
  destruct (String.eqb_spec (Row.id r) (ConversionArgs.linkId args)) as [Heq|Hne].
  - rewrite bump_conversions_id, count_conversions_logged.
    change (Conversion.link_id (conversion_of e args)) with (ConversionArgs.linkId args).
    rewrite Heq, String.eqb_refl.
    cbn [bump_conversions Row.clicks Row.conversions].
    rewrite Heq in Hc, Hv. split; [exact Hc | lia].
  - rewrite count_conversions_logged.
    change (Conversion.link_id (conversion_of e args)) with (ConversionArgs.linkId args).
    rewrite String.eqb_sym. apply String.eqb_neq in Hne. rewrite Hne.
    split; [exact Hc | lia].
Qed.

Lemma counts_agree_call (e : env) (req : request) (d : database) :
  (forall n, io_fail e n = false) ->
  (foreign_keys d = true /\ no_orphans d /\ no_orphan_conversions d)
  /\ Forall (counts_agree d) (affiliate_links d) ->
  (foreign_keys (snd (tools_call e req d)) = true
   /\ no_orphans (snd (tools_call e req d))
   /\ no_orphan_conversions (snd (tools_call e req d)))
  /\ Forall (counts_agree (snd (tools_call e req d)))
            (affiliate_links (snd (tools_call e req d))).
Proof.
  intros Hio [Href Hd].
  split; [exact (references_step d req _ (tools_call_step e req d) Href)|].
  destruct Href as (_ & Hc & Hv).
  pose proof (reads_keep e req d) as Hread.
  destruct req; try (rewrite Hread; exact Hd).
  - destruct (store_cases e args d) as [[_ ->] | (_ & Hnew & _ & ->)]; [exact Hd|].
    unfold link_stored. cbn [affiliate_links set_links].
    apply Forall_app. split; [exact Hd|]. constructor; [|constructor].
    unfold counts_agree.
    change (Row.id (row_of e args)) with (generateId e).
    change (count_clicks ?i (set_links d _)) with (count_clicks i d).
    change (count_conversions ?i (set_links d _)) with (count_conversions i d).
    rewrite (no_orphans_count _ d Hc Hnew), (no_orphan_conversions_count _ d Hv Hnew).
    now split.
  - destruct (track_click_cases e args d)
      as [[_ ->] | [(_ & Hf & _) | (_ & _ & ->)]];
      [exact Hd | rewrite Hio in Hf; discriminate |].
    now apply counts_agree_click.
  - destruct (track_conversion_cases e args d)
      as [[_ ->] | [(_ & Hf & _) | (_ & _ & ->)]];
      [exact Hd | rewrite Hio in Hf; discriminate |].
    now apply counts_agree_conversion.
Qed.

(** X9: when no statement of the session meets a disk error, the integer
    counters of the cache are exact: on the store as the server opens it,
    after any session, every link has clicks equal to the number of its click
    rows and conversions equal to the number of its conversion rows. *)
Theorem counts_agree_without_faults (calls : list (env * request)) :
  fault_free calls ->
  let d := serve calls open_database in
  Forall (counts_agree d) (affiliate_links d).
Proof.
  intros Hfree. cbv zeta.
  enough (H : forall d,
             (foreign_keys d = true /\ no_orphans d /\ no_orphan_conversions d)
             /\ Forall (counts_agree d) (affiliate_links d) ->
             (foreign_keys (serve calls d) = true /\ no_orphans (serve calls d)
              /\ no_orphan_conversions (serve calls d))
             /\ Forall (counts_agree (serve calls d)) (affiliate_links (serve calls d))).
  { apply H. repeat split; constructor. }
  induction Hfree as [|[e req] calls He _ IH]; intros d Hd; [exact Hd|].
  cbn [serve]. apply IH. now apply counts_agree_call.
Qed.

Lemma counts_agree_without_faults_witness :
  fault_free (shop_calls ++ two_sales)
  /\ Forall (counts_agree (serve (shop_calls ++ two_sales) open_database))
            (affiliate_links (serve (shop_calls ++ two_sales) open_database)).
Proof.
  assert (H : fault_free (shop_calls ++ two_sales))
    by (repeat constructor).
  split; [exact H | exact (counts_agree_without_faults _ H)].
Defined.

(** ** Storing a link and reading it back *)

Lemma tagged_step (id : string) (blob : option string) (d : database) (req : request)
    (d' : database) :
  step d req d' -> tagged id blob d -> tagged id blob d'.
Proof.
  intros Hstep (row & Hsel & Htags). destruct Hstep.
  - now exists row.
  - exists row. split; [now apply select_link_stored | exact Htags].
  - now exists row.
  - unfold click_counted. eexists. split.
    + rewrite select_update by apply bump_clicks_id.
      rewrite select_click_logged, Hsel. reflexivity.
    + now destruct (String.eqb _ _).
  - now exists row.
  - unfold conversion_counted. eexists. split.
    + rewrite select_update by apply bump_conversions_id.
      rewrite select_conversion_logged, Hsel. reflexivity.
    + now destruct (String.eqb _ _).
Qed.

Lemma blob_denotes_stringify (tags tags' : list string) :
  blob_denotes (Some (JSON.stringify tags)) tags' -> tags' = tags.
Proof.
  intros [[H _] | H]; [discriminate|].
  apply (f_equal (fun o => match o with
                           | Some text => JSON.parse text
                           | None => None
                           end)) in H.
  rewrite !parse_stringify in H. now injection H.
Qed.

(** X10: the tags given to store_affiliate_link come back as given, in order
    and character for character, after any further session: from the record
    lookup, and in every object of the JSON export that carries the id of the
    link. *)
Theorem stored_tags_read_back (e0 e : env) (args : StoreArgs.t) (d0 : database)
    (calls : list (env * request)) (tags : list string) :
  reachable d0 ->
  StoreArgs.tags args = Some tags ->
  let created := tools_call e0 (call_store_affiliate_link args) d0 in
  isError (fst created) = false ->
  let id := generateId e0 in
  let d := serve calls (snd created) in
  (exists l, getAffiliateLink id d = (Ok (Some l), d)
             /\ Link.id l = id /\ Link.tags l = tags)
  /\ (exists objs,
        tools_call e (call_export_links "json") d = (success (JArr objs), d)
        /\ (exists o, In o objs /\ get "id" o = Some (JStr id))
        /\ (forall o, In o objs -> get "id" o = Some (JStr id) ->
                      get "tags" o = Some (JArr (map JStr tags)))).
Proof.
  intros Hreach Htags. cbv zeta. intros Hok.
  destruct (store_cases e0 args d0) as [[Herr _] | (_ & Hid & _ & Hd)]; [congruence|].
  rewrite Hd. set (d := serve calls (link_stored (row_of e0 args) d0)).
  assert (Hstored : step d0 (call_store_affiliate_link args)
                         (link_stored (row_of e0 args) d0))
    by (rewrite <- Hd; apply tools_call_step).
  assert (Htagged : tagged (generateId e0) (Some (JSON.stringify tags)) d).
  { apply serve_invariant; [apply tagged_step|].
    exists (row_of e0 args). split.
    - change (generateId e0) with (Row.id (row_of e0 args)).
      now apply select_link_stored_new.
    - cbn. now rewrite Htags. }
  assert (Hblobs : blobs_ok d).
  { apply serve_invariant; [exact blobs_ok_step|].
    eapply blobs_ok_step; [exact Hstored | now apply reachable_blobs_ok]. }
  assert (Hunique : ids_unique d).
  { apply serve_invariant; [exact ids_unique_step|].
    eapply ids_unique_step; [exact Hstored|].
    revert Hreach.
    apply reachable_invariant; [intros fk; constructor | exact ids_unique_step]. }
  destruct Htagged as (row & Hsel & Hblob).
  destruct (select_by_id_Some _ _ _ Hsel) as [Hin Hrowid].
  split.
  - exists (link_of row tags). split; [|now split].
    unfold getAffiliateLink. rewrite Hsel.
    rewrite (to_link_denotes row tags); [reflexivity|].
    right. exact Hblob.
  - destruct (export_json_reply e d Hblobs) as (objs & Hout & Hall).
    exists objs. split; [exact Hout|].
    pose proof (order_by_desc_perm created_geb (affiliate_links d)) as Hperm.
    split.
    + assert (Hin' : In row (order_by_desc created_geb (affiliate_links d)))
        by (eapply Permutation_in; [symmetry; exact Hperm | exact Hin]).
      destruct (Forall2_In_l _ _ _ _ Hall Hin') as (o & Ho & ts & _ & Heq).
      exists o. split; [exact Ho|]. rewrite Heq. cbn. now rewrite Hrowid.
    + intros o Ho Hoid.
      destruct (Forall2_In_r _ _ _ _ Hall Ho) as (row' & Hrow' & ts & Hden & Heq).
      rewrite Heq in Hoid |- *. cbn in Hoid. injection Hoid as Hoid.
      assert (Hrow'in : In row' (affiliate_links d))
        by (eapply Permutation_in; [exact Hperm | exact Hrow']).
      assert (row' = row)
        by (eapply ids_unique_row; [exact Hunique | | | congruence]; assumption).
      subst row'. rewrite Hblob in Hden.
      apply blob_denotes_stringify in Hden. subst ts. reflexivity.
Qed.

Lemma stored_tags_read_back_witness :
  reachable shop
  /\ exists l,
      getAffiliateLink "aff_10" shop_with_desk = (Ok (Some l), shop_with_desk)
      /\ Link.id l = "aff_10" /\ Link.tags l = ["wfh"; "ergonomic"].
Proof.
  assert (Hr : reachable shop) by (exists true, shop_calls; reflexivity).
  split; [exact Hr|].
  exact (proj1 (stored_tags_read_back
                  (healthy "aff_10" "2024-05-08T09:00:00.000Z")
                  (healthy "aff_20" "2024-05-09T09:00:00.000Z")
                  desk shop [] ["wfh"; "ergonomic"] Hr eq_refl eq_refl)).
Defined.

(** X11: store_affiliate_link is all or nothing.  When it answers with an
    error the store is untouched.  When it succeeds the reply carries the
    generated id, exactly one row was added, and get_stats on that id then
    reports the product and program that were given and a revenue of 0. *)
Theorem store_all_or_nothing (e0 e : env) (args : StoreArgs.t) (d0 : database) :
  reachable d0 ->
  let created := tools_call e0 (call_store_affiliate_link args) d0 in
  (isError (fst created) = true -> snd created = d0)
  /\ (isError (fst created) = false ->
      field "linkId" (fst created) = Some (JStr (generateId e0))
      /\ List.length (affiliate_links (snd created))
         = S (List.length (affiliate_links d0))
      /\ let out := tools_call e (call_get_stats (generateId e0)) (snd created) in
         field "product" (fst out) = Some (JStr (StoreArgs.product args))
         /\ field "program" (fst out) = Some (JStr (StoreArgs.program args))
         /\ field "revenue" (fst out) = Some (JNum 0%Q)).
Proof.
  intros Hreach. cbv zeta.
  destruct (store_cases e0 args d0)
    as [[Herr Hsame] | (Hok & Hid & Hurl & Hd)].
  - split; [intros _; exact Hsame | congruence].
  - split; [congruence|]. intros _.
    assert (Hreply : field "linkId" (fst (tools_call e0 (call_store_affiliate_link args) d0))
                     = Some (JStr (generateId e0))).
    { revert Hok.
      unfold tools_call, dispatch, store_affiliate_link, bind, insert_link.
      destruct (io_fail e0 0); [discriminate|].
      destruct (mem (StoreArgs.link args) _); [discriminate|].
      destruct (mem (generateId e0) _); [discriminate|].
      reflexivity. }
    split; [exact Hreply|]. rewrite Hd.
    split.
    { unfold link_stored. cbn [affiliate_links set_links].
      rewrite length_app. cbn. lia. }
    assert (Hblobs : blobs_ok (link_stored (row_of e0 args) d0)).
    { apply (blobs_ok_step d0 (call_store_affiliate_link args));
        [|now apply reachable_blobs_ok].
      rewrite <- Hd. apply tools_call_step. }
    assert (Hsel : select_by_id (generateId e0) (link_stored (row_of e0 args) d0)
                   = Some (row_of e0 args)).
    { change (generateId e0) with (Row.id (row_of e0 args)).
      now apply select_link_stored_new. }
    rewrite (get_stats_reply e _ _ _ Hblobs Hsel). repeat split.
Qed.

Lemma store_all_or_nothing_witness :
  reachable shop
  /\ (isError (fst (tools_call (healthy "aff_10" "2024-05-08T09:00:00.000Z")
                               (call_store_affiliate_link desk) shop)) = false ->
      field "linkId" (fst (tools_call (healthy "aff_10" "2024-05-08T09:00:00.000Z")
                                      (call_store_affiliate_link desk) shop))
      = Some (JStr "aff_10")).
Proof.
  assert (Hr : reachable shop) by (exists true, shop_calls; reflexivity).
  split; [exact Hr|]. intros Hok.
  exact (proj1 (proj2 (store_all_or_nothing
                         (healthy "aff_10" "2024-05-08T09:00:00.000Z")
                         (healthy "aff_20" "2024-05-09T09:00:00.000Z")
                         desk shop Hr) Hok)).
Defined.

(** ** Recording a conversion *)

Lemma select_by_id_mem (id : string) (d : database) (row : Row.t) :
  select_by_id id d = Some row -> mem id (map Row.id (affiliate_links d)) = true.
Proof.
  intros Hsel. apply mem_In. apply select_by_id_Some in Hsel.
  destruct Hsel as [Hin <-]. now apply in_map.
Qed.

(** X12: on an existing link, with no disk error and an event id that is not
    taken, track_conversion succeeds under either foreign-key setting: the
    link gets conversions + 1 and revenue + amount (for any amount, negative
    ones too), its clicks stay, it has one more conversion row, and every
    other link is left as it was. *)
Theorem conversion_recorded (e : env) (args : ConversionArgs.t) (d : database)
    (row : Row.t) :
  select_by_id (ConversionArgs.linkId args) d = Some row ->
  io_fail e 0 = false ->
  io_fail e 1 = false ->
  ~ In (generateId e) (map Conversion.id (link_conversions d)) ->
  let out := tools_call e (call_track_conversion args) d in
  let id := ConversionArgs.linkId args in
  isError (fst out) = false
  /\ (exists row',
        select_by_id id (snd out) = Some row'
        /\ Row.conversions row' = (Row.conversions row + 1)%Z
        /\ Row.revenue row' = (Row.revenue row + ConversionArgs.amount args)%Q
        /\ Row.clicks row' = Row.clicks row)
  /\ count_conversions id (snd out) = (count_conversions id d + 1)%Z
  /\ (forall other, other <> id -> select_by_id other (snd out) = select_by_id other d).
Proof.
  intros Hsel Hio0 Hio1 Hfresh. cbv zeta.
  pose proof (select_by_id_mem _ _ _ Hsel) as Hmem.
  apply mem_false in Hfresh.
  assert (Hout : tools_call e (call_track_conversion args) d
                 = (success
                      (JObj [("success", JBool true);
                             ("message",
                              JTpl [Lit "Conversion tracked: $";
                                    NumText (ConversionArgs.amount args)])]),
                    conversion_counted (ConversionArgs.amount args)
                      (ConversionArgs.linkId args)
                      (conversion_logged (conversion_of e args) d))).
  { unfold tools_call, dispatch, track_conversion, bind, insert_conversion,
      update_conversions, parent_exists.
    fold (conversion_of e args).
    change (Conversion.id (conversion_of e args)) with (generateId e).
    change (Conversion.link_id (conversion_of e args)) with (ConversionArgs.linkId args).
    rewrite Hio0, Hio1, Hfresh, Hmem, orb_true_r. reflexivity. }
  rewrite Hout. cbn [fst snd]. split; [reflexivity|].
  split; [|split].
  - unfold conversion_counted. rewrite select_update by apply bump_conversions_id.
    rewrite select_conversion_logged, Hsel. cbn [option_map].
    destruct (select_by_id_Some _ _ _ Hsel) as [_ Hid].
    rewrite Hid, String.eqb_refl. eexists. split; [reflexivity|]. repeat split.
  - change (count_conversions ?i (conversion_counted _ _ (conversion_logged ?c d)))
      with (count_conversions i (conversion_logged c d)).
    rewrite count_conversions_logged.
    change (Conversion.link_id (conversion_of e args)) with (ConversionArgs.linkId args).
    now rewrite String.eqb_refl.
  - intros other Hother.
    unfold conversion_counted. rewrite select_update by apply bump_conversions_id.
    rewrite select_conversion_logged.
    destruct (select_by_id other d) as [r|] eqn:Hr; [|reflexivity].
    destruct (select_by_id_Some _ _ _ Hr) as [_ Hid]. cbn [option_map].
    rewrite Hid. apply String.eqb_neq in Hother. now rewrite Hother.
Qed.

Lemma conversion_recorded_witness :
  select_by_id "aff_1" shop
  = Some (Row.mk "aff_1" "Amazon" "Ergonomic chair" "https://example.com/chair" (9 # 2)
                 "office-furniture" None None "2024-05-01T10:00:00.000Z"
                 "2024-05-01T10:00:00.000Z" 0 0 0%Q None)
  /\ isError (fst (tools_call (healthy "aff_6" "2024-05-07T12:00:00.000Z")
                              (sale_on "aff_1" (45 # 2)) shop)) = false.
Proof.
  split; [reflexivity|].
  refine (proj1 (conversion_recorded (healthy "aff_6" "2024-05-07T12:00:00.000Z")
                   (ConversionArgs.mk "aff_1" (45 # 2) None) shop _
                   eq_refl eq_refl eq_refl _)).
  cbn. tauto.
Defined.

(** ** get_best_link *)

(** X13: get_best_link never fails and never writes.  When no link has the
    category it answers with the not-found payload, which is not flagged as
    an error; otherwise it answers with a stored link of that category whose
    commission rate is at least that of every stored link of the category. *)
Theorem best_link_is_best (e : env) (category : string) (d : database) :
  let out := tools_call e (call_get_best_link category) d in
  snd out = d
  /\ isError (fst out) = false
  /\ ((forall r, In r (affiliate_links d) -> Row.category r <> category)
      /\ fst out = success (error_payload ("No links found for category: " ++ category))
      \/ exists best,
           In best (affiliate_links d)
           /\ Row.category best = category
           /\ fst out = success (found_json best)
           /\ forall r, In r (affiliate_links d) -> Row.category r = category ->
                        (Row.commission_rate r <= Row.commission_rate best)%Q).
Proof.
  cbv zeta. unfold tools_call, dispatch, get_best_link, select_links, limit_rows.
  cbn [Z.ltb Z.compare Z.to_nat Pos.to_nat Pos.iter_op Nat.add forallb holds].
  set (matching := filter _ (affiliate_links d)).
  assert (Hmatch : forall r, In r matching
                             <-> In r (affiliate_links d) /\ Row.category r = category).
  { intros r. unfold matching. rewrite filter_In, andb_true_r, String.eqb_eq.
    reflexivity. }
  pose proof (order_by_desc_perm commission_geb matching) as Hperm.
  pose proof (sorted_by_commission _
                (order_by_desc_sorted commission_geb commission_geb_total
                   commission_geb_trans matching)) as Hsorted.
  destruct (order_by_desc commission_geb matching) as [|best rest] eqn:Hfull.
  - cbn. repeat split. left. split; [|reflexivity].
    intros r Hin Hcat.
    assert (Hr : In r matching) by (apply Hmatch; now split).
    eapply Permutation_in in Hr; [|symmetry; exact Hperm]. contradiction.
  - cbn. repeat split. right. exists best.
    assert (Hbest : In best matching)
      by (eapply Permutation_in; [exact Hperm | now left]).
    apply Hmatch in Hbest. destruct Hbest as [Hin Hcat].
    repeat split; [exact Hin | exact Hcat |].
    intros r Hr Hrcat.
    assert (Hr' : In r (best :: rest)).
    { eapply Permutation_in; [symmetry; exact Hperm|]. apply Hmatch. now split. }
    apply StronglySorted_inv in Hsorted. destruct Hsorted as [_ Hall].
    destruct Hr' as [<- | Hr']; [apply Qle_refl|].
    rewrite Forall_forall in Hall. exact (Hall r Hr').
Qed.

(** ** The order of the export *)

Lemma string_leb_trans (s1 s2 s3 : string) :
  String.leb s1 s2 = true -> String.leb s2 s3 = true -> String.leb s1 s3 = true.
Proof.
  unfold String.leb. revert s2 s3.
  induction s1 as [|c1 s1 IH]; intros [|c2 s2] [|c3 s3]; cbn [String.compare];
    try reflexivity; try discriminate.
  unfold Ascii.compare.
  destruct (N.compare_spec (N_of_ascii c1) (N_of_ascii c2)) as [H12|H12|H12];
    destruct (N.compare_spec (N_of_ascii c2) (N_of_ascii c3)) as [H23|H23|H23];
    destruct (N.compare_spec (N_of_ascii c1) (N_of_ascii c3)) as [H13|H13|H13];
    try reflexivity; try discriminate; try lia.
  apply IH.
Qed.

Lemma created_geb_total (x y : Row.t) :
  created_geb x y = true \/ created_geb y x = true.
Proof. unfold created_geb. apply String.leb_total. Qed.

Lemma created_geb_trans (x y z : Row.t) :
  created_geb x y = true -> created_geb y z = true -> created_geb x z = true.
Proof. unfold created_geb. intros H1 H2. eapply string_leb_trans; eauto. Qed.

(** X14: the JSON export lists the links newest first: its objects stand, in
    this order, for a rearrangement of the stored rows in which no row has a
    created_at below that of a row after it. *)
Theorem export_newest_first (e : env) (d : database) :
  reachable d ->
  exists (rows : list Row.t) (objs : list json),
    tools_call e (call_export_links "json") d = (success (JArr objs), d)
    /\ Forall2 exported_as rows objs
    /\ Permutation rows (affiliate_links d)
    /\ StronglySorted newest_first rows.
Proof.
  intros Hreach.
  destruct (export_json_reply e d (reachable_blobs_ok d Hreach)) as (objs & Hout & Hall).
  exists (order_by_desc created_geb (affiliate_links d)), objs.
  repeat split; [exact Hout | exact Hall | apply order_by_desc_perm |].
  apply (order_by_desc_sorted created_geb created_geb_total created_geb_trans).
Qed.

Lemma export_newest_first_witness :
  reachable shop_with_desk
  /\ exists (rows : list Row.t) (objs : list json),
      tools_call (healthy "aff_20" "2024-05-09T09:00:00.000Z")
                 (call_export_links "json") shop_with_desk
      = (success (JArr objs), shop_with_desk)
      /\ Forall2 exported_as rows objs
      /\ Permutation rows (affiliate_links shop_with_desk)
      /\ StronglySorted newest_first rows.
Proof.
  assert (Hr : reachable shop_with_desk)
    by (exists true, shop_with_desk_calls; reflexivity).
  split; [exact Hr|].
  exact (export_newest_first (healthy "aff_20" "2024-05-09T09:00:00.000Z")
           shop_with_desk Hr).
Defined.

(** ** search_links and the LIKE operator *)














(** ** The CSV export *)

Lemma map_result_links (rows : list Row.t) :
  Forall (fun r => exists tags, blob_denotes (Row.tags r) tags) rows ->
  exists links,
    map_result to_link rows = Ok links
    /\ flat_map (fun l => Lit newline :: csv_row l) links = flat_map csv_line rows.
Proof.
  induction 1 as [|r rows [tags Hr] _ (links & Hmap & Hcsv)].
  - exists []. now split.
  - exists (link_of r tags :: links). split.
    + cbn [map_result]. now rewrite (to_link_denotes r tags Hr), Hmap.
    + cbn [flat_map]. rewrite Hcsv. reflexivity.
Qed.

(** X17: in every reachable store export_links with format csv succeeds and
    writes nothing; its text is the fixed header followed by one line per
    stored link, newest first, each line holding the nine columns id,
    program, product, link, commission rate, category, clicks, conversions
    and revenue between double quotes, the strings exactly as stored (no
    character of them is escaped). *)
Theorem export_csv_lines (e : env) (d : database) :
  reachable d ->
  exists rows : list Row.t,
    Permutation rows (affiliate_links d)
    /\ StronglySorted newest_first rows
    /\ tools_call e (call_export_links "csv") d
       = ({| content := Text (Lit csv_headers :: flat_map csv_line rows);
             isError := false |}, d).
Proof.
  intros Hreach.
  exists (order_by_desc created_geb (affiliate_links d)).
  split; [apply order_by_desc_perm|].
  split; [apply (order_by_desc_sorted created_geb created_geb_total created_geb_trans)|].
  assert (Hsorted : Forall (fun r => exists tags, blob_denotes (Row.tags r) tags)
                           (order_by_desc created_geb (affiliate_links d))).
  { eapply Permutation_Forall; [|exact (reachable_blobs_ok d Hreach)].
    symmetry. apply order_by_desc_perm. }
  destruct (map_result_links _ Hsorted) as (links & Hmap & Hcsv).
  unfold tools_call, dispatch, export_links, bind, getAllAffiliateLinks.
  rewrite Hmap, <- Hcsv. reflexivity.
Qed.

Lemma export_csv_lines_witness :
  reachable shop_with_desk
  /\ exists rows : list Row.t,
      Permutation rows (affiliate_links shop_with_desk)
      /\ StronglySorted newest_first rows
      /\ tools_call (healthy "aff_20" "2024-05-09T09:00:00.000Z")
                    (call_export_links "csv") shop_with_desk
         = ({| content := Text (Lit csv_headers :: flat_map csv_line rows);
               isError := false |}, shop_with_desk).
Proof.
  assert (Hr : reachable shop_with_desk)
    by (exists true, shop_with_desk_calls; reflexivity).
  split; [exact Hr|].
  exact (export_csv_lines (healthy "aff_20" "2024-05-09T09:00:00.000Z")
           shop_with_desk Hr).
Defined.

(** ** Error replies and the links table *)

(** X18: a reply flagged as an error never comes with a change to
    affiliate_links: whatever the tool and whatever failed, the link records,
    their counters included, are as before the call. *)
Theorem error_keeps_links (e : env) (req : request) (d : database) :
  isError (fst (tools_call e req d)) = true ->
  affiliate_links (snd (tools_call e req d)) = affiliate_links d.
Proof.
  intros Herr. pose proof (reads_keep e req d) as Hread.
  destruct req; try (now rewrite Hread).
  - destruct (store_cases e args d) as [[_ ->] | (Hok & _)]; [reflexivity | congruence].
  - destruct (track_click_cases e args d)
      as [[_ ->] | [(_ & _ & _ & ->) | (_ & Hok & _)]];
      [reflexivity | reflexivity | congruence].
  - destruct (track_conversion_cases e args d)
      as [[_ ->] | [(_ & _ & _ & ->) | (_ & Hok & _)]];
      [reflexivity | reflexivity | congruence].
Qed.

Lemma error_keeps_links_witness :
  isError (fst (tools_call (second_fails "aff_3" "2024-05-04T12:00:00.000Z")
                           (sale_on "aff_1" (10 # 1)) shop)) = true
  /\ affiliate_links (snd (tools_call (second_fails "aff_3" "2024-05-04T12:00:00.000Z")
                                      (sale_on "aff_1" (10 # 1)) shop))
     = affiliate_links shop.
Proof.
  split; [reflexivity|].
  exact (error_keeps_links (second_fails "aff_3" "2024-05-04T12:00:00.000Z")
           (sale_on "aff_1" (10 # 1)) shop eq_refl).
Defined.

(** ** The cache never runs ahead of the event tables *)

Lemma counters_lag_step (d : database) (req : request) (d' : database) :
  step d req d' ->
  Forall (counters_lag d) (affiliate_links d) ->
  Forall (counters_lag d') (affiliate_links d').
Proof.
  intros Hstep Hd. destruct Hstep.
  - exact Hd.
  - unfold link_stored. cbn [affiliate_links set_links].
    apply Forall_app. split; [exact Hd|]. constructor; [|constructor].
    unfold counters_lag, count_clicks, count_conversions. cbn. lia.
  - cbn [affiliate_links click_logged set_clicks].
    eapply Forall_impl; [|exact Hd]. intros r [Hc Hv]. split; [|exact Hv].
    rewrite count_clicks_logged. destruct (String.eqb _ _); lia.
  - unfold click_counted at 2.
    cbn [affiliate_links set_links click_logged set_clicks].
    unfold update_where_id. apply Forall_map.
    eapply Forall_impl; [|exact Hd]. intros r [Hc Hv]. unfold counters_lag.
    change (count_conversions ?i (click_counted _ (click_logged _ d)))
      with (count_conversions i d).
    change (count_clicks ?i (click_counted _ (click_logged ?c d)))
      with (count_clicks i (click_logged c d)).
    destruct (String.eqb_spec (Row.id r) (ClickArgs.linkId args)) as [Heq|Hne].
    + rewrite bump_clicks_id, count_clicks_logged.
      change (Click.link_id (click_of e args)) with (ClickArgs.linkId args).
      rewrite Heq, String.eqb_refl. cbn [bump_clicks Row.clicks Row.conversions].
      rewrite Heq in Hc, Hv. split; lia.
    + rewrite count_clicks_logged. destruct (String.eqb _ _); split; lia.
  - cbn [affiliate_links conversion_logged set_conversions].
    eapply Forall_impl; [|exact Hd]. intros r [Hc Hv]. split; [exact Hc|].
    rewrite count_conversions_logged. destruct (String.eqb _ _); lia.
  - unfold conversion_counted at 2.
    cbn [affiliate_links set_links conversion_logged set_conversions].
    unfold update_where_id. apply Forall_map.
    eapply Forall_impl; [|exact Hd]. intros r [Hc Hv]. unfold counters_lag.
    change (count_clicks ?i (conversion_counted _ _ (conversion_logged _ d)))
      with (count_clicks i d).
    change (count_conversions ?i (conversion_counted _ _ (conversion_logged ?c d)))
      with (count_conversions i (conversion_logged c d)).
    destruct (String.eqb_spec (Row.id r) (ConversionArgs.linkId args)) as [Heq|Hne].
    + rewrite bump_conversions_id, count_conversions_logged.
      change (Conversion.link_id (conversion_of e args))
        with (ConversionArgs.linkId args).
      rewrite Heq, String.eqb_refl.
      cbn [bump_conversions Row.clicks Row.conversions].
      rewrite Heq in Hc, Hv. split; lia.
    + rewrite count_conversions_logged. destruct (String.eqb _ _); split; lia.
Qed.

(** X19: disk errors included, the cache never runs ahead of the event
    tables: in every reachable store the clicks of every link are at most the
    number of its click rows, and its conversions at most the number of its
    conversion rows, so get_stats never reports fewer clicks or conversions
    than the link record holds. *)
Theorem counters_never_ahead (d : database) :
  reachable d -> Forall (counters_lag d) (affiliate_links d).
Proof.
  apply (reachable_invariant (fun d => Forall (counters_lag d) (affiliate_links d)));
    [intros fk; constructor | exact counters_lag_step].
Qed.

Lemma counters_never_ahead_witness :
  reachable shop_after_failed_sale
  /\ Forall (counters_lag shop_after_failed_sale) (affiliate_links shop_after_failed_sale).
Proof.
  assert (Hr : reachable shop_after_failed_sale)
    by (exists true, failed_sale_calls; reflexivity).
  split; [exact Hr | exact (counters_never_ahead _ Hr)].
Defined.

(** ** Recording a click *)

(** X20: on an existing link, with no disk error and an event id that is not
    taken, track_click succeeds under either foreign-key setting: one row is
    appended to link_clicks, with an empty source or userId stored as NULL,
    the link gets clicks + 1 while its conversions and revenue stay, and
    every other link is left as it was. *)
Theorem click_recorded (e : env) (args : ClickArgs.t) (d : database) (row : Row.t) :
  select_by_id (ClickArgs.linkId args) d = Some row ->
  io_fail e 0 = false ->
  io_fail e 1 = false ->
  ~ In (generateId e) (map Click.id (link_clicks d)) ->
  let out := tools_call e (call_track_click args) d in
  let id := ClickArgs.linkId args in
  fst out = success (JObj [("success", JBool true); ("message", JStr "Click tracked")])
  /\ link_clicks (snd out)
     = link_clicks d
       ++ [Click.mk (generateId e) id (now e) (or_null (ClickArgs.source args))
                    (or_null (ClickArgs.userId args))]
  /\ (exists row',
        select_by_id id (snd out) = Some row'
        /\ Row.clicks row' = (Row.clicks row + 1)%Z
        /\ Row.conversions row' = Row.conversions row
        /\ Row.revenue row' = Row.revenue row)
  /\ (forall other, other <> id -> select_by_id other (snd out) = select_by_id other d).
Proof.
  intros Hsel Hio0 Hio1 Hfresh. cbv zeta.
  pose proof (select_by_id_mem _ _ _ Hsel) as Hmem.
  apply mem_false in Hfresh.
  assert (Hout : tools_call e (call_track_click args) d
                 = (success (JObj [("success", JBool true);
                                   ("message", JStr "Click tracked")]),
                    click_counted (ClickArgs.linkId args)
                      (click_logged (click_of e args) d))).
  { unfold tools_call, dispatch, track_click, bind, insert_click, update_clicks,
      parent_exists.
    fold (click_of e args).
    change (Click.id (click_of e args)) with (generateId e).
    change (Click.link_id (click_of e args)) with (ClickArgs.linkId args).
    rewrite Hio0, Hio1, Hfresh, Hmem, orb_true_r. reflexivity. }
  rewrite Hout. cbn [fst snd]. split; [reflexivity|].
  split; [reflexivity|]. split.
  - unfold click_counted. rewrite select_update by apply bump_clicks_id.
    rewrite select_click_logged, Hsel. cbn [option_map].
    destruct (select_by_id_Some _ _ _ Hsel) as [_ Hid].
    rewrite Hid, String.eqb_refl. eexists. split; [reflexivity|]. repeat split.
  - intros other Hother.
    unfold click_counted. rewrite select_update by apply bump_clicks_id.
    rewrite select_click_logged.
    destruct (select_by_id other d) as [r|] eqn:Hr; [|reflexivity].
    destruct (select_by_id_Some _ _ _ Hr) as [_ Hid]. cbn [option_map].
    rewrite Hid. apply String.eqb_neq in Hother. now rewrite Hother.
Qed.

Lemma click_recorded_witness :
  select_by_id "aff_1" shop
  = Some (Row.mk "aff_1" "Amazon" "Ergonomic chair" "https://example.com/chair" (9 # 2)
                 "office-furniture" None None "2024-05-01T10:00:00.000Z"
                 "2024-05-01T10:00:00.000Z" 0 0 0%Q None)
  /\ fst (tools_call (healthy "aff_12" "2024-05-08T11:00:00.000Z")
                     (click_on "aff_1") shop)
     = success (JObj [("success", JBool true); ("message", JStr "Click tracked")]).
Proof.
  split; [reflexivity|].
  refine (proj1 (click_recorded (healthy "aff_12" "2024-05-08T11:00:00.000Z")
                   (ClickArgs.mk "aff_1" None None) shop _
                   eq_refl eq_refl eq_refl _)).
  cbn. tauto.
Defined.
